(** * Retirement planner: tax estimator and year projector

    A shallow embedding of [retirement_planner/taxes.py] and
    [retirement_planner/calculations.py], and of the two calls of
    [retirement_planner/app.py] that build a [ProjectionConfig].

    Numbers.  Python [int] is [Z].  Python [float] is modelled by the exact
    rationals [Q]: every arithmetic law below is a law of exact arithmetic,
    and [==] on floats is read as [Qeq].  Rounding is outside this model;
    the one worked example of the tax estimator is also evaluated on IEEE
    binary64 numbers in [Module Binary64].  So is overflow: on binary64
    numbers the power of line 77 of [calculations.py] raises
    [OverflowError] once [1.025 ** (age - 62)] exceeds the binary64 range
    (ages in the tens of thousands), where the power of the rationals has
    a value.

    Exceptions.  A call that can raise returns [Exc A]; the only exception
    the modelled code can raise is the [TypeError] of a call with a keyword
    argument the callee does not declare. *)

From Stdlib Require Import ZArith QArith Qminmax Lqa Lia List Bool String.
From Stdlib Require Import Floats Qpower.
Import ListNotations.

Set Warnings "-inexact-float".

Local Open Scope Q_scope.

(** ** Python primitives *)

Module Py.

(** [a <= b] and [a < b] on floats, as tests. *)
Definition leb (a b : Q) : bool := Qle_bool a b.
Definition ltb (a b : Q) : bool := negb (Qle_bool b a).

(** The builtin [min(a, b)]: keeps the first argument unless the second
    is strictly smaller.  [max(a, b)] likewise. *)
Definition min (a b : Q) : Q := if ltb b a then b else a.
Definition max (a b : Q) : Q := if ltb a b then b else a.

(** [list(range(lo, hi))] on integers. *)
Definition range (lo hi : Z) : list Z :=
  map (fun i => (lo + Z.of_nat i)%Z) (seq 0 (Z.to_nat (hi - lo))).

(** [enumerate(l)]. *)
Definition enumerate {A : Type} (l : list A) : list (nat * A) :=
  combine (seq 0 (List.length l)) l.

(** [d.get(key, default)] on a dict given by its items. *)
Fixpoint dict_get {V : Type} (d : list (string * V)) (key : string) (default : V) : V :=
  match d with
  | [] => default
  | (k, v) :: d' => if String.eqb k key then v else dict_get d' key default
  end.

(** Exceptions and the results of calls that may raise. *)
Inductive Exception : Type :=
| TypeError_unexpected_keyword (callee keyword : string)
| TypeError_missing_argument (callee argument : string).

Inductive Exc (A : Type) : Type :=
| Return (a : A)
| Raise (e : Exception).
Arguments Return {A} a.
Arguments Raise {A} e.

Definition bind {A B : Type} (c : Exc A) (k : A -> Exc B) : Exc B :=
  match c with
  | Return a => k a
  | Raise e => Raise e
  end.

(** A value passed as a keyword argument. *)
Inductive Value : Type :=
| VStr (s : string)
| VFloat (x : Q).

Fixpoint kw_lookup (kwargs : list (string * Value)) (name : string) : option Value :=
  match kwargs with
  | [] => None
  | (k, v) :: rest => if String.eqb k name then Some v else kw_lookup rest name
  end.

(** The first keyword of a call that is not among the declared
    parameters, when there is one. *)
Definition unexpected_keyword (params : list string) (kwargs : list (string * Value))
  : option string :=
  option_map fst
    (find (fun kv => negb (existsb (String.eqb (fst kv)) params)) kwargs).

End Py.

Notation "x <- c ;; k" := (Py.bind c (fun x => k))
  (at level 61, c at next level, right associativity).

(** ** taxes.py *)

Module Taxes.

(** [OrdinaryBracket = Tuple[float, float]], (threshold, rate). *)
Definition OrdinaryBracket : Type := (Q * Q)%type.

Definition FEDERAL_BRACKETS_SINGLE : list OrdinaryBracket :=
  [ (0.0, 0.10);
    (11600.0, 0.12);
    (47150.0, 0.22);
    (100525.0, 0.24);
    (191950.0, 0.32);
    (243725.0, 0.35);
    (609350.0, 0.37) ].

Definition FEDERAL_BRACKETS_MARRIED : list OrdinaryBracket :=
  [ (0.0, 0.10);
    (23200.0, 0.12);
    (94300.0, 0.22);
    (201050.0, 0.24);
    (383900.0, 0.32);
    (487450.0, 0.35);
    (731200.0, 0.37) ].

Definition STANDARD_DEDUCTION : list (string * Q) :=
  [ ("single"%string, 14600.0);
    ("married"%string, 29200.0) ].

(** The dataclass [TaxInput]: four fields. *)
Record TaxInput : Type := mkTaxInput {
  filing_status : string;
  state_rate : Q;
  ordinary_income : Q;
  capital_gains_income : Q
}.

Definition TaxInput_fields : list string :=
  [ "filing_status"; "state_rate"; "ordinary_income"; "capital_gains_income" ]%string.

(** The generated [TaxInput.__init__] called with keyword arguments only:
    a keyword that is not a field raises [TypeError], and so does a field
    left without a value.  The fields have no defaults.  (A dataclass does
    not check the types of its fields; the callers here pass a string for
    [filing_status] and floats for the rest, and a value of the other
    kind is reported like a missing one.) *)
Definition TaxInput_init (kwargs : list (string * Py.Value)) : Py.Exc TaxInput :=
  match Py.unexpected_keyword TaxInput_fields kwargs with
  | Some k => Py.Raise (Py.TypeError_unexpected_keyword "TaxInput.__init__" k)
  | None =>
      match Py.kw_lookup kwargs "filing_status",
            Py.kw_lookup kwargs "state_rate",
            Py.kw_lookup kwargs "ordinary_income",
            Py.kw_lookup kwargs "capital_gains_income" with
      | Some (Py.VStr fs), Some (Py.VFloat sr), Some (Py.VFloat oi), Some (Py.VFloat cg) =>
          Py.Return (mkTaxInput fs sr oi cg)
      | Some (Py.VStr _), Some (Py.VFloat _), Some (Py.VFloat _), _ =>
          Py.Raise (Py.TypeError_missing_argument "TaxInput.__init__" "capital_gains_income")
      | Some (Py.VStr _), Some (Py.VFloat _), _, _ =>
          Py.Raise (Py.TypeError_missing_argument "TaxInput.__init__" "ordinary_income")
      | Some (Py.VStr _), _, _, _ =>
          Py.Raise (Py.TypeError_missing_argument "TaxInput.__init__" "state_rate")
      | _, _, _, _ =>
          Py.Raise (Py.TypeError_missing_argument "TaxInput.__init__" "filing_status")
      end
  end.

Record TaxResult : Type := mkTaxResult {
  total_tax : Q;
  effective_rate : Q;
  federal_tax : Q;
  state_tax : Q;
  ordinary_income_taxed : Q;
  capital_gains_taxed : Q
}.

Definition _get_brackets (filing_status : string) : list OrdinaryBracket :=
  if String.eqb filing_status "married" then FEDERAL_BRACKETS_MARRIED
  else FEDERAL_BRACKETS_SINGLE.

(** [amount_in_bracket] of the loop body of [_apply_ordinary_brackets],
    for the bracket at index [i] with threshold [threshold]. *)
Definition amount_in_bracket (taxable_income : Q) (brackets : list OrdinaryBracket)
           (i : nat) (threshold : Q) : Q :=
  if (i + 1 <? List.length brackets)%nat then
    let next_threshold := fst (nth (i + 1) brackets (0, 0)) in
    Py.max 0.0 (Py.min taxable_income next_threshold - threshold)
  else
    Py.max 0.0 (taxable_income - threshold).

(** One iteration of the loop: [tax] is the running total. *)
Definition bracket_step (taxable_income : Q) (brackets : list OrdinaryBracket)
           (tax : Q) (item : nat * OrdinaryBracket) : Q :=
  let '(i, (threshold, rate)) := item in
  let amount := amount_in_bracket taxable_income brackets i threshold in
  if Py.leb amount 0 then tax            (* continue *)
  else tax + amount * rate.

Definition _apply_ordinary_brackets (taxable_income : Q)
           (brackets : list OrdinaryBracket) : Q :=
  if Py.leb taxable_income 0 then 0.0
  else fold_left (bracket_step taxable_income brackets) (Py.enumerate brackets) 0.0.

(** The locals of [compute_taxes], in the order the function binds them. *)
Definition effective_filing_status (ti : TaxInput) : string :=
  if existsb (String.eqb (filing_status ti)) ["single"; "married"]%string
  then filing_status ti else "single"%string.

(** [STANDARD_DEDUCTION.get(filing_status, STANDARD_DEDUCTION["single"])];
    the key "single" is in the dict, so the subscript never raises and the
    inner default is never used. *)
Definition std_deduction (ti : TaxInput) : Q :=
  Py.dict_get STANDARD_DEDUCTION (effective_filing_status ti)
    (Py.dict_get STANDARD_DEDUCTION "single" 0).

Definition taxable_ordinary (ti : TaxInput) : Q :=
  Py.max 0.0 (ordinary_income ti - std_deduction ti).

Definition federal_ordinary_tax (ti : TaxInput) : Q :=
  _apply_ordinary_brackets (taxable_ordinary ti)
    (_get_brackets (effective_filing_status ti)).

Definition capital_gains_rate : Q := 0.15.

Definition federal_capital_tax (ti : TaxInput) : Q :=
  Py.max 0.0 (capital_gains_income ti) * capital_gains_rate.

Definition total_income (ti : TaxInput) : Q :=
  ordinary_income ti + capital_gains_income ti.

Definition compute_taxes (ti : TaxInput) : TaxResult :=
  let federal_tax := federal_ordinary_tax ti + federal_capital_tax ti in
  let total_income := total_income ti in
  let state_tax := Py.max 0.0 total_income * Py.max 0.0 (state_rate ti) in
  let total_tax := federal_tax + state_tax in
  let effective_rate :=
    if Py.ltb 0 total_income then total_tax / total_income else 0.0 in
  {| total_tax := total_tax;
     effective_rate := effective_rate;
     federal_tax := federal_tax;
     state_tax := state_tax;
     ordinary_income_taxed := taxable_ordinary ti;
     capital_gains_taxed := capital_gains_income ti |}.

(** [estimate_brokerage_gains(withdrawal, gain_fraction=0.5)]. *)
Definition estimate_brokerage_gains_with (withdrawal gain_fraction : Q) : Q :=
  if Py.leb withdrawal 0 then 0.0
  else
    let gain_fraction := Py.max 0.0 (Py.min 1.0 gain_fraction) in
    withdrawal * gain_fraction.

Definition estimate_brokerage_gains (withdrawal : Q) : Q :=
  estimate_brokerage_gains_with withdrawal 0.5.

End Taxes.

(** ** calculations.py *)

Module Calculations.

(** The dataclass [ProjectionConfig].  [withdrawal_order] is a string at
    run time; the projector compares it with ["brokerage_first"] and
    treats every other value as ["tax_deferred_first"]. *)
Record ProjectionConfig : Type := mkProjectionConfig {
  current_age : Z;
  retire_age : Z;
  end_age : Z;
  current_401k_balance : Q;
  current_brokerage_balance : Q;
  annual_401k_contribution : Q;
  annual_brokerage_contribution : Q;
  real_return_401k : Q;
  real_return_brokerage : Q;
  swr : Q;
  filing_status : string;
  state_tax_rate : Q;
  withdrawal_order : string
}.

Definition _year_sequence (config : ProjectionConfig) : list Z :=
  Py.range (current_age config) (end_age config + 1).

Definition SOCIAL_SECURITY_MAX_AGE_62 : Q := 41000.0.
Definition SOCIAL_SECURITY_COLA : Q := 0.025.

(** The local variables of one iteration of the loop of [run_projection]
    once the withdrawals are settled (line 100 of the retirement branch,
    line 114 of the other one). *)
Module Locals.
Record t : Type := mk {
  year_index : Z;
  is_retirement_year : bool;
  post_growth_401k : Q;
  post_growth_brokerage : Q;
  social_security_income : Q;
  withdrawal_total : Q;
  withdrawal_401k : Q;
  withdrawal_brokerage : Q;
  balance_401k : Q;
  balance_brokerage : Q
}.
End Locals.

(** One row of the data frame [run_projection] returns: the spec's
    YearRecord. *)
Module Row.
Record t : Type := mk {
  age : Z;
  year_index : Z;
  is_retirement_year : bool;
  balance_401k : Q;
  balance_brokerage : Q;
  total_balance : Q;
  withdrawal_total : Q;
  withdrawal_401k : Q;
  withdrawal_brokerage : Q;
  social_security_income : Q;
  tax_total : Q;
  net_income_after_tax : Q;
  tax_effective_rate : Q;
  federal_tax : Q;
  state_tax : Q
}.
End Row.

(** Lines 50-100 and 113-114: from the balances carried into the year to
    the balances carried out of it. *)
Definition year_locals (config : ProjectionConfig)
           (balance_401k balance_brokerage : Q) (age : Z) : Locals.t :=
  let year_index := (age - current_age config)%Z in
  let is_retirement_year := (retire_age config <=? age)%Z in
  let pre_growth_401k :=
    if negb is_retirement_year
    then balance_401k + annual_401k_contribution config else balance_401k in
  let pre_growth_brokerage :=
    if negb is_retirement_year
    then balance_brokerage + annual_brokerage_contribution config
    else balance_brokerage in
  let post_growth_401k := pre_growth_401k * (1 + real_return_401k config) in
  let post_growth_brokerage :=
    pre_growth_brokerage * (1 + real_return_brokerage config) in
  let social_security_income :=
    if is_retirement_year && (62 <=? age)%Z then
      let years_since_62 := (age - 62)%Z in
      SOCIAL_SECURITY_MAX_AGE_62 * ((1 + SOCIAL_SECURITY_COLA) ^ years_since_62)
    else 0.0 in
  if is_retirement_year then
    let current_portfolio_balance := post_growth_401k + post_growth_brokerage in
    let withdrawal_total := current_portfolio_balance * swr config in
    let '(from_401k, from_brokerage) :=
      if String.eqb (withdrawal_order config) "brokerage_first" then
        let from_brokerage := Py.min withdrawal_total post_growth_brokerage in
        (withdrawal_total - from_brokerage, from_brokerage)
      else
        let from_401k := Py.min withdrawal_total post_growth_401k in
        (from_401k, withdrawal_total - from_401k) in
    Locals.mk year_index is_retirement_year post_growth_401k post_growth_brokerage
      social_security_income withdrawal_total from_401k from_brokerage
      (post_growth_401k - from_401k) (post_growth_brokerage - from_brokerage)
  else
    Locals.mk year_index is_retirement_year post_growth_401k post_growth_brokerage
      social_security_income 0.0 0.0 0.0 post_growth_401k post_growth_brokerage.

(** Lines 116-153: the row of the year, from its locals and from the tax
    result when there is one. *)
Definition make_row (age : Z) (l : Locals.t) (tax_result : option Taxes.TaxResult)
  : Row.t :=
  let total_balance := Locals.balance_401k l + Locals.balance_brokerage l in
  let total_tax :=
    match tax_result with Some r => Taxes.total_tax r | None => 0.0 end in
  let total_income := Locals.withdrawal_total l + Locals.social_security_income l in
  let net_income := total_income - total_tax in
  Row.mk age (Locals.year_index l) (Locals.is_retirement_year l)
    (Locals.balance_401k l) (Locals.balance_brokerage l) total_balance
    (Locals.withdrawal_total l) (Locals.withdrawal_401k l)
    (Locals.withdrawal_brokerage l) (Locals.social_security_income l)
    total_tax net_income
    (match tax_result with Some r => Taxes.effective_rate r | None => 0.0 end)
    (match tax_result with Some r => Taxes.federal_tax r | None => 0.0 end)
    (match tax_result with Some r => Taxes.state_tax r | None => 0.0 end).

(** The keyword arguments of the call [TaxInput(...)] at lines 104-110. *)
Definition tax_input_kwargs (config : ProjectionConfig) (l : Locals.t)
  : list (string * Py.Value) :=
  let est_cap_gains := Taxes.estimate_brokerage_gains (Locals.withdrawal_brokerage l) in
  [ ("filing_status"%string, Py.VStr (filing_status config));
    ("state_rate"%string, Py.VFloat (state_tax_rate config));
    ("ordinary_income"%string, Py.VFloat (Locals.withdrawal_401k l));
    ("capital_gains_income"%string, Py.VFloat est_cap_gains);
    ("social_security_income"%string, Py.VFloat (Locals.social_security_income l)) ].

(** The body of the loop: the row appended for [age] and the balances
    carried to the next year, or the exception that ends the run. *)
Definition year_body (config : ProjectionConfig)
           (balance_401k balance_brokerage : Q) (age : Z)
  : Py.Exc (Row.t * (Q * Q)) :=
  let l := year_locals config balance_401k balance_brokerage age in
  if Locals.is_retirement_year l then
    tax_input <- Taxes.TaxInput_init (tax_input_kwargs config l) ;;
    let tax_result := Taxes.compute_taxes tax_input in
    Py.Return (make_row age l (Some tax_result),
               (Locals.balance_401k l, Locals.balance_brokerage l))
  else
    Py.Return (make_row age l None,
               (Locals.balance_401k l, Locals.balance_brokerage l)).

Fixpoint projection_loop (config : ProjectionConfig) (years : list Z)
         (balance_401k balance_brokerage : Q) (rows : list Row.t)
  : Py.Exc (list Row.t) :=
  match years with
  | [] => Py.Return rows
  | age :: years' =>
      step <- year_body config balance_401k balance_brokerage age ;;
      let '(row, (balance_401k', balance_brokerage')) := step in
      projection_loop config years' balance_401k' balance_brokerage' (rows ++ [row])
  end.

(** [run_projection]: the data frame is the list of its rows. *)
Definition run_projection (config : ProjectionConfig) : Py.Exc (list Row.t) :=
  projection_loop config (_year_sequence config)
    (current_401k_balance config) (current_brokerage_balance config) [].

End Calculations.

(** ** The tax estimator on IEEE binary64 numbers

    The same functions of [taxes.py] with [float] read as binary64, for
    evaluating the estimator on concrete inputs with the rounding Python
    performs. *)

Module Binary64.

Local Open Scope float_scope.

Definition min (a b : float) : float := if PrimFloat.ltb b a then b else a.
Definition max (a b : float) : float := if PrimFloat.ltb a b then b else a.

Definition OrdinaryBracket : Type := (float * float)%type.

Definition FEDERAL_BRACKETS_SINGLE : list OrdinaryBracket :=
  [ (0.0, 0.10);
    (11600.0, 0.12);
    (47150.0, 0.22);
    (100525.0, 0.24);
    (191950.0, 0.32);
    (243725.0, 0.35);
    (609350.0, 0.37) ].

Definition FEDERAL_BRACKETS_MARRIED : list OrdinaryBracket :=
  [ (0.0, 0.10);
    (23200.0, 0.12);
    (94300.0, 0.22);
    (201050.0, 0.24);
    (383900.0, 0.32);
    (487450.0, 0.35);
    (731200.0, 0.37) ].

Definition STANDARD_DEDUCTION : list (string * float) :=
  [ ("single"%string, 14600.0);
    ("married"%string, 29200.0) ].

Record TaxInput : Type := mkTaxInput {
  filing_status : string;
  state_rate : float;
  ordinary_income : float;
  capital_gains_income : float
}.

Record TaxResult : Type := mkTaxResult {
  total_tax : float;
  effective_rate : float;
  federal_tax : float;
  state_tax : float;
  ordinary_income_taxed : float;
  capital_gains_taxed : float
}.

Definition _get_brackets (filing_status : string) : list OrdinaryBracket :=
  if String.eqb filing_status "married" then FEDERAL_BRACKETS_MARRIED
  else FEDERAL_BRACKETS_SINGLE.

Definition bracket_step (taxable_income : float) (brackets : list OrdinaryBracket)
           (tax : float) (item : nat * OrdinaryBracket) : float :=
  let '(i, (threshold, rate)) := item in
  let amount_in_bracket :=
    if (i + 1 <? List.length brackets)%nat then
      let next_threshold := fst (nth (i + 1) brackets (0, 0)) in
      max 0.0 (min taxable_income next_threshold - threshold)
    else
      max 0.0 (taxable_income - threshold) in
  if PrimFloat.leb amount_in_bracket 0 then tax
  else tax + amount_in_bracket * rate.

Definition _apply_ordinary_brackets (taxable_income : float)
           (brackets : list OrdinaryBracket) : float :=
  if PrimFloat.leb taxable_income 0 then 0.0
  else fold_left (bracket_step taxable_income brackets) (Py.enumerate brackets) 0.0.

Definition compute_taxes (ti : TaxInput) : TaxResult :=
  let filing_status :=
    if existsb (String.eqb (filing_status ti)) ["single"; "married"]%string
    then filing_status ti else "single"%string in
  let brackets := _get_brackets filing_status in
  let std_deduction :=
    Py.dict_get STANDARD_DEDUCTION filing_status
      (Py.dict_get STANDARD_DEDUCTION "single" 0) in
  let taxable_ordinary := max 0.0 (ordinary_income ti - std_deduction) in
  let federal_ordinary_tax := _apply_ordinary_brackets taxable_ordinary brackets in
  let capital_gains_rate := 0.15 in
  let federal_capital_tax := max 0.0 (capital_gains_income ti) * capital_gains_rate in
  let federal_tax := federal_ordinary_tax + federal_capital_tax in
  let total_income := ordinary_income ti + capital_gains_income ti in
  let state_tax := max 0.0 total_income * max 0.0 (state_rate ti) in
  let total_tax := federal_tax + state_tax in
  let effective_rate :=
    if PrimFloat.ltb 0 total_income then total_tax / total_income else 0.0 in
  {| total_tax := total_tax;
     effective_rate := effective_rate;
     federal_tax := federal_tax;
     state_tax := state_tax;
     ordinary_income_taxed := taxable_ordinary;
     capital_gains_taxed := capital_gains_income ti |}.

End Binary64.

(** ** The marginal-bracket rule, as the specification words it *)

Module Spec.

(** The amount of [taxable_income] taxed at the rate of bracket [i]:
    [max(0, min(taxable_income, t_{i+1}) - t_i)], and
    [max(0, taxable_income - t_i)] for the last bracket. *)
Definition band (taxable_income : Q) (brackets : list Taxes.OrdinaryBracket)
           (i : nat) : Q :=
  let t_i := fst (nth i brackets (0, 0)) in
  if (S i =? List.length brackets)%nat then Qmax 0 (taxable_income - t_i)
  else
    let t_next := fst (nth (S i) brackets (0, 0)) in
    Qmax 0 (Qmin taxable_income t_next - t_i).

Definition Qsum (l : list Q) : Q := fold_right Qplus 0 l.

(** The sum over the brackets of amount times rate. *)
Definition marginal_tax (taxable_income : Q) (brackets : list Taxes.OrdinaryBracket)
  : Q :=
  Qsum (map (fun i => band taxable_income brackets i * snd (nth i brackets (0, 0)))
            (seq 0 (List.length brackets))).

End Spec.

(** ** Concrete inputs *)

Module Inputs.

(** The bracket example: a single filer with 60000 of ordinary income,
    no capital gains and no state tax. *)
Definition single_60000 : Taxes.TaxInput :=
  Taxes.mkTaxInput "single" 0 60000 0.

Definition single_60000_binary64 : Binary64.TaxInput :=
  Binary64.mkTaxInput "single" 0%float 60000%float 0%float.

(** Ordinary income of 50000 and a capital loss of 60000: the total
    income is -10000. *)
Definition capital_loss : Taxes.TaxInput :=
  Taxes.mkTaxInput "single" 0.05 50000 (-60000).

(** No ordinary income and a capital loss of 1000. *)
Definition small_capital_loss : Taxes.TaxInput :=
  Taxes.mkTaxInput "single" 0.05 0 (-1000).

Definition married_80000 : Taxes.TaxInput :=
  Taxes.mkTaxInput "married" 0.05 80000 2000.

Definition married_90000 : Taxes.TaxInput :=
  Taxes.mkTaxInput "married" 0.05 90000 2000.

(** The end-to-end scenario: one working year, then retirement at 65. *)
Definition retiring : Calculations.ProjectionConfig :=
  Calculations.mkProjectionConfig 64 65 66 100000 0 0 0 0 0.05 0.04
    "single" 0 "tax_deferred_first".

(** Four working years and no retirement year: the plan ends before the
    retirement age. *)
Definition saving : Calculations.ProjectionConfig :=
  Calculations.mkProjectionConfig 60 65 63 100000 50000 5000 1000 0.05 0.05 0.04
    "single" 0.05 "brokerage_first".

Definition saving_rows : list Calculations.Row.t :=
  Eval vm_compute in
    match Calculations.run_projection saving with
    | Py.Return rows => rows
    | Py.Raise _ => []
    end.

(** A brokerage account that is overdrawn when the year starts. *)
Definition overdrawn : Calculations.ProjectionConfig :=
  Calculations.mkProjectionConfig 65 65 66 100000 (-50000) 0 0 0 0 0.04
    "single" 0 "brokerage_first".

Definition brokerage_first : Calculations.ProjectionConfig :=
  Calculations.mkProjectionConfig 65 65 90 300000 600000 0 0 0.07 0.07 0.04
    "married" 0.05 "brokerage_first".

End Inputs.

(** ** app.py: building the configuration *)

Module App.

(** A value passed as a keyword argument to [ProjectionConfig]. *)
Inductive Arg : Type :=
| AInt (n : Z)
| AFloat (x : Q)
| AStr (s : string).

Fixpoint kw_lookup (kwargs : list (string * Arg)) (name : string) : option Arg :=
  match kwargs with
  | [] => None
  | (k, v) :: rest => if String.eqb k name then Some v else kw_lookup rest name
  end.

(** The first keyword of a call that is not among the declared parameters,
    when there is one. *)
Definition unexpected_keyword (params : list string) (kwargs : list (string * Arg))
  : option string :=
  option_map fst
    (find (fun kv => negb (existsb (String.eqb (fst kv)) params)) kwargs).

(** The fields of the dataclass [ProjectionConfig], in the order of their
    declaration (calculations.py, lines 17-34). *)
Definition ProjectionConfig_fields : list string :=
  [ "current_age"; "retire_age"; "end_age";
    "current_401k_balance"; "current_brokerage_balance";
    "annual_401k_contribution"; "annual_brokerage_contribution";
    "real_return_401k"; "real_return_brokerage";
    "swr"; "filing_status"; "state_tax_rate"; "withdrawal_order" ]%string.

(** A keyword argument read as an [int], a [float] (an [int] given for a
    float counts, as it does in Python arithmetic) or a [str]; [default] is
    the default of the field, [None] for a field without one.  The result
    is [None] when the field has neither a value nor a default, or when the
    value is of another kind (the callers never pass one). *)
Definition int_field (kwargs : list (string * Arg)) (name : string) (default : option Z)
  : option Z :=
  match kw_lookup kwargs name with
  | Some (AInt n) => Some n
  | Some _ => None
  | None => default
  end.

Definition float_field (kwargs : list (string * Arg)) (name : string) (default : option Q)
  : option Q :=
  match kw_lookup kwargs name with
  | Some (AFloat x) => Some x
  | Some (AInt n) => Some (inject_Z n)
  | Some (AStr _) => None
  | None => default
  end.

Definition str_field (kwargs : list (string * Arg)) (name : string) (default : option string)
  : option string :=
  match kw_lookup kwargs name with
  | Some (AStr s) => Some s
  | Some _ => None
  | None => default
  end.

Definition require {A : Type} (name : string) (v : option A) : Py.Exc A :=
  match v with
  | Some a => Py.Return a
  | None => Py.Raise (Py.TypeError_missing_argument "ProjectionConfig.__init__" name)
  end.

(** The generated [ProjectionConfig.__init__] called with keyword arguments
    only: a keyword that is not a field raises [TypeError]; [current_age]
    and [retire_age] have no default and must be given; the other fields
    take the defaults of the class. *)
Definition ProjectionConfig_init (kwargs : list (string * Arg))
  : Py.Exc Calculations.ProjectionConfig :=
  match unexpected_keyword ProjectionConfig_fields kwargs with
  | Some k => Py.Raise (Py.TypeError_unexpected_keyword "ProjectionConfig.__init__" k)
  | None =>
      current_age <- require "current_age" (int_field kwargs "current_age" None) ;;
      retire_age <- require "retire_age" (int_field kwargs "retire_age" None) ;;
      end_age <- require "end_age" (int_field kwargs "end_age" (Some 100%Z)) ;;
      current_401k_balance <-
        require "current_401k_balance"
                (float_field kwargs "current_401k_balance" (Some 0.0)) ;;
      current_brokerage_balance <-
        require "current_brokerage_balance"
                (float_field kwargs "current_brokerage_balance" (Some 0.0)) ;;
      annual_401k_contribution <-
        require "annual_401k_contribution"
                (float_field kwargs "annual_401k_contribution" (Some 0.0)) ;;
      annual_brokerage_contribution <-
        require "annual_brokerage_contribution"
                (float_field kwargs "annual_brokerage_contribution" (Some 0.0)) ;;
      real_return_401k <-
        require "real_return_401k" (float_field kwargs "real_return_401k" (Some 0.05)) ;;
      real_return_brokerage <-
        require "real_return_brokerage"
                (float_field kwargs "real_return_brokerage" (Some 0.05)) ;;
      swr <- require "swr" (float_field kwargs "swr" (Some 0.04)) ;;
      filing_status <-
        require "filing_status" (str_field kwargs "filing_status" (Some "single"%string)) ;;
      state_tax_rate <-
        require "state_tax_rate" (float_field kwargs "state_tax_rate" (Some 0.05)) ;;
      withdrawal_order <-
        require "withdrawal_order"
                (str_field kwargs "withdrawal_order" (Some "brokerage_first"%string)) ;;
      Py.Return
        (Calculations.mkProjectionConfig current_age retire_age end_age
           current_401k_balance current_brokerage_balance
           annual_401k_contribution annual_brokerage_contribution
           real_return_401k real_return_brokerage swr
           filing_status state_tax_rate withdrawal_order)
  end.

(** The keyword arguments of the call in [_default_config] (lines 21-36). *)
Definition default_config_kwargs : list (string * Arg) :=
  [ ("current_age"%string, AInt 51);
    ("retire_age"%string, AInt 55);
    ("end_age"%string, AInt 100);
    ("current_401k_balance"%string, AFloat 300000.0);
    ("current_brokerage_balance"%string, AFloat 600000.0);
    ("annual_401k_contribution"%string, AFloat 22000.0);
    ("annual_brokerage_contribution"%string, AFloat 12000.0);
    ("real_return_401k"%string, AFloat 0.07);
    ("real_return_brokerage"%string, AFloat 0.07);
    ("swr"%string, AFloat 0.04);
    ("filing_status"%string, AStr "married");
    ("state_tax_rate"%string, AFloat 0.05);
    ("withdrawal_order"%string, AStr "tax_deferred_first");
    ("social_security_start_age"%string, AInt 62) ].

Definition _default_config : Py.Exc Calculations.ProjectionConfig :=
  ProjectionConfig_init default_config_kwargs.

(** The keyword arguments of the call that ends [_build_sidebar] (lines
    76-91), for the values read from the widgets and converted with [int]
    and [float]. *)
Definition build_sidebar_kwargs
           (current_age retire_age end_age : Z)
           (current_401k_balance current_brokerage_balance
            annual_401k_contribution annual_brokerage_contribution
            real_return_401k real_return_brokerage swr : Q)
           (filing_status : string) (state_tax_rate : Q)
           (withdrawal_order : string) (social_security_start_age : Z)
  : list (string * Arg) :=
  [ ("current_age"%string, AInt current_age);
    ("retire_age"%string, AInt retire_age);
    ("end_age"%string, AInt end_age);
    ("current_401k_balance"%string, AFloat current_401k_balance);
    ("current_brokerage_balance"%string, AFloat current_brokerage_balance);
    ("annual_401k_contribution"%string, AFloat annual_401k_contribution);
    ("annual_brokerage_contribution"%string, AFloat annual_brokerage_contribution);
    ("real_return_401k"%string, AFloat real_return_401k);
    ("real_return_brokerage"%string, AFloat real_return_brokerage);
    ("swr"%string, AFloat swr);
    ("filing_status"%string, AStr filing_status);
    ("state_tax_rate"%string, AFloat state_tax_rate);
    ("withdrawal_order"%string, AStr withdrawal_order);
    ("social_security_start_age"%string, AInt social_security_start_age) ].

End App.

(** ** Auxiliary definitions for the proofs *)

Module Bands.

(** The bracket tax accumulated from the head of [suf] on: amount times
    rate of each bracket of [suf], with the amounts of the loop. *)
Fixpoint tax_from (t : Q) (suf : list Taxes.OrdinaryBracket) : Q :=
  match suf with
  | [] => 0
  | (a, r) :: rest =>
      (match rest with
       | [] => Py.max 0.0 (t - a)
       | (a', _) :: _ => Py.max 0.0 (Py.min t a' - a)
       end) * r + tax_from t rest
  end.

(** Thresholds in ascending order. *)
Fixpoint ascending (suf : list Taxes.OrdinaryBracket) : Prop :=
  match suf with
  | [] => True
  | (a, _) :: rest =>
      match rest with
      | [] => True
      | (a', _) :: _ => a <= a'
      end /\ ascending rest
  end.

(** Thresholds and rates both in ascending order: a progressive table. *)
Fixpoint progressive (suf : list Taxes.OrdinaryBracket) : Prop :=
  match suf with
  | [] => True
  | (a, r) :: rest =>
      match rest with
      | [] => True
      | (a', r') :: _ => a <= a' /\ r <= r'
      end /\ progressive rest
  end.

(** [wide] has the rates of [narrow] and thresholds at least as high. *)
Definition wider (narrow wide : list Taxes.OrdinaryBracket) : Prop :=
  Forall2 (fun bn bw => snd bn = snd bw /\ fst bn <= fst bw) narrow wide.

End Bands.

Module MoreInputs.

Definition single_50000 : Taxes.TaxInput := Taxes.mkTaxInput "single" 0.05 50000 10000.
Definition single_60000 : Taxes.TaxInput := Taxes.mkTaxInput "single" 0.06 60000 12000.
Definition single_55000 : Taxes.TaxInput := Taxes.mkTaxInput "single" 0.05 55000 10000.
Definition married_50000 : Taxes.TaxInput := Taxes.mkTaxInput "married" 0.05 50000 10000.
Definition head_of_household : Taxes.TaxInput :=
  Taxes.mkTaxInput "head_of_household" 0.05 50000 10000.

(** A plan that ends before the first year starts. *)
Definition empty_range : Calculations.ProjectionConfig :=
  Calculations.mkProjectionConfig 70 65 60 100000 50000 5000 1000 0.05 0.05 0.04
    "single" 0.05 "brokerage_first".

Definition tax_deferred_first : Calculations.ProjectionConfig :=
  Calculations.mkProjectionConfig 65 65 90 300000 600000 0 0 0.07 0.07 0.04
    "married" 0.05 "tax_deferred_first".

End MoreInputs.

(** ** One year of the projector on IEEE binary64 numbers

    Lines 50-66, 84-100 and 113-114 of [calculations.py] with [float] read
    as binary64: the balances and the withdrawals of one year, with the
    rounding Python performs.  The Social Security income of lines 68-79 is
    left out: it is computed with the power of the C library, and it enters
    neither the withdrawals nor the balances. *)

Module Binary64Year.

Local Open Scope float_scope.

Record ProjectionConfig : Type := mkProjectionConfig {
  current_age : Z;
  retire_age : Z;
  end_age : Z;
  current_401k_balance : float;
  current_brokerage_balance : float;
  annual_401k_contribution : float;
  annual_brokerage_contribution : float;
  real_return_401k : float;
  real_return_brokerage : float;
  swr : float;
  filing_status : string;
  state_tax_rate : float;
  withdrawal_order : string
}.

Module Locals.
Record t : Type := mk {
  year_index : Z;
  is_retirement_year : bool;
  post_growth_401k : float;
  post_growth_brokerage : float;
  withdrawal_total : float;
  withdrawal_401k : float;
  withdrawal_brokerage : float;
  balance_401k : float;
  balance_brokerage : float
}.
End Locals.

Definition year_locals (config : ProjectionConfig)
           (balance_401k balance_brokerage : float) (age : Z) : Locals.t :=
  let year_index := (age - current_age config)%Z in
  let is_retirement_year := (retire_age config <=? age)%Z in
  let pre_growth_401k :=
    if negb is_retirement_year
    then balance_401k + annual_401k_contribution config else balance_401k in
  let pre_growth_brokerage :=
    if negb is_retirement_year
    then balance_brokerage + annual_brokerage_contribution config
    else balance_brokerage in
  let post_growth_401k := pre_growth_401k * (1 + real_return_401k config) in
  let post_growth_brokerage :=
    pre_growth_brokerage * (1 + real_return_brokerage config) in
  if is_retirement_year then
    let current_portfolio_balance := post_growth_401k + post_growth_brokerage in
    let withdrawal_total := current_portfolio_balance * swr config in
    let '(from_401k, from_brokerage) :=
      if String.eqb (withdrawal_order config) "brokerage_first" then
        let from_brokerage := Binary64.min withdrawal_total post_growth_brokerage in
        (withdrawal_total - from_brokerage, from_brokerage)
      else
        let from_401k := Binary64.min withdrawal_total post_growth_401k in
        (from_401k, withdrawal_total - from_401k) in
    Locals.mk year_index is_retirement_year post_growth_401k post_growth_brokerage
      withdrawal_total from_401k from_brokerage
      (post_growth_401k - from_401k) (post_growth_brokerage - from_brokerage)
  else
    Locals.mk year_index is_retirement_year post_growth_401k post_growth_brokerage
      0.0 0.0 0.0 post_growth_401k post_growth_brokerage.

(** Ten cents in the 401k and twenty in the brokerage account, no growth,
    and the whole portfolio withdrawn each year ([swr] 1.0), brokerage
    first. *)
Definition withdraw_all : ProjectionConfig :=
  mkProjectionConfig 65 65 66 0.1 0.2 0.0 0.0 0.0 0.0 1.0
    "single" 0.0 "brokerage_first".

(** 100000 and 98765, 5% growth and 3.5% withdrawn, brokerage first. *)
Definition uneven : ProjectionConfig :=
  mkProjectionConfig 65 65 66 100000.0 98765.0 0.0 0.0 0.05 0.05 0.035
    "single" 0.0 "brokerage_first".

(** A single filer with 22500 of ordinary income and no state tax. *)
Definition single_22500 : Binary64.TaxInput :=
  Binary64.mkTaxInput "single" 0.0 22500.0 0.0.

End Binary64Year.

(** * Properties *)

(** ** Comparisons, [min] and [max] *)

Lemma leb_true (a b : Q) : Py.leb a b = true <-> a <= b.
Proof. unfold Py.leb. apply Qle_bool_iff. Qed.

Lemma leb_false (a b : Q) : Py.leb a b = false <-> b < a.
Proof.
  unfold Py.leb. rewrite <- Bool.not_true_iff_false, Qle_bool_iff.
  split; [apply Qnot_le_lt | apply Qlt_not_le].
Qed.

Lemma ltb_true (a b : Q) : Py.ltb a b = true <-> a < b.
Proof.
  unfold Py.ltb. rewrite Bool.negb_true_iff. apply leb_false.
Qed.

Lemma ltb_false (a b : Q) : Py.ltb a b = false <-> b <= a.
Proof.
  unfold Py.ltb. rewrite Bool.negb_false_iff. apply leb_true.
Qed.

Lemma min_cases (a b : Q) :
  (b < a /\ Py.min a b = b) \/ (a <= b /\ Py.min a b = a).
Proof.
  unfold Py.min. destruct (Py.ltb b a) eqn:E.
  - left. split; [now apply ltb_true | reflexivity].
  - right. split; [now apply ltb_false | reflexivity].
Qed.

Lemma max_cases (a b : Q) :
  (a < b /\ Py.max a b = b) \/ (b <= a /\ Py.max a b = a).
Proof.
  unfold Py.max. destruct (Py.ltb a b) eqn:E.
  - left. split; [now apply ltb_true | reflexivity].
  - right. split; [now apply ltb_false | reflexivity].
Qed.

(** Case analysis on every test, [min] and [max] of the goal. *)
Ltac py_cases :=
  repeat match goal with
    | |- context [Py.min ?a ?b] =>
        let H := fresh "Hmin" in let E := fresh "Emin" in
        destruct (min_cases a b) as [[H E] | [H E]]; rewrite E in *; clear E
    | |- context [Py.max ?a ?b] =>
        let H := fresh "Hmax" in let E := fresh "Emax" in
        destruct (max_cases a b) as [[H E] | [H E]]; rewrite E in *; clear E
    | |- context [Py.leb ?a ?b] =>
        let E := fresh "Eleb" in
        destruct (Py.leb a b) eqn:E;
        [apply leb_true in E | apply leb_false in E]
    | |- context [Py.ltb ?a ?b] =>
        let E := fresh "Eltb" in
        destruct (Py.ltb a b) eqn:E;
        [apply ltb_true in E | apply ltb_false in E]
    end.

Lemma max_is_Qmax (a b : Q) : Py.max a b == Qmax a b.
Proof.
  destruct (max_cases a b) as [[H E] | [H E]]; rewrite E.
  - symmetry. apply Q.max_r. now apply Qlt_le_weak.
  - symmetry. apply Q.max_l. exact H.
Qed.

Lemma max0_is_Qmax (x : Q) : Py.max 0.0 x == Qmax 0 x.
Proof. rewrite max_is_Qmax. apply Q.max_compat; reflexivity. Qed.

Lemma min_is_Qmin (a b : Q) : Py.min a b == Qmin a b.
Proof.
  destruct (min_cases a b) as [[H E] | [H E]]; rewrite E.
  - symmetry. apply Q.min_r. now apply Qlt_le_weak.
  - symmetry. apply Q.min_l. exact H.
Qed.

(** ** The bracket loop *)

Section Brackets.

Variable taxable_income : Q.
Variable brackets : list Taxes.OrdinaryBracket.

Let step := Taxes.bracket_step taxable_income brackets.

Lemma amount_in_bracket_nonneg (i : nat) (threshold : Q) :
  0 <= Taxes.amount_in_bracket taxable_income brackets i threshold.
Proof.
  unfold Taxes.amount_in_bracket.
  destruct (i + 1 <? List.length brackets)%nat; py_cases; lra.
Qed.

(** The amount of the loop is the band of the specification. *)
Lemma amount_in_bracket_band (i : nat) :
  (i < List.length brackets)%nat ->
  Taxes.amount_in_bracket taxable_income brackets i (fst (nth i brackets (0, 0)))
  == Spec.band taxable_income brackets i.
Proof.
  intros Hi. unfold Taxes.amount_in_bracket, Spec.band.
  destruct (i + 1 <? List.length brackets)%nat eqn:E.
  - apply Nat.ltb_lt in E.
    replace (S i =? List.length brackets)%nat with false
      by (symmetry; apply Nat.eqb_neq; lia).
    replace (i + 1)%nat with (S i) by lia. cbv zeta.
    rewrite max_is_Qmax, min_is_Qmin.
    apply Q.max_compat; [reflexivity | reflexivity].
  - apply Nat.ltb_ge in E.
    replace (S i =? List.length brackets)%nat with true
      by (symmetry; apply Nat.eqb_eq; lia).
    rewrite max_is_Qmax. apply Q.max_compat; reflexivity.
Qed.

(** An iteration adds amount times rate; the [continue] of an empty band
    adds nothing. *)
Lemma bracket_step_adds (tax : Q) (i : nat) (threshold rate : Q) :
  step tax (i, (threshold, rate))
  == tax + Taxes.amount_in_bracket taxable_income brackets i threshold * rate.
Proof.
  unfold step, Taxes.bracket_step.
  pose proof (amount_in_bracket_nonneg i threshold) as Hnn.
  destruct (Py.leb _ 0) eqn:E.
  - apply leb_true in E.
    assert (H0 : Taxes.amount_in_bracket taxable_income brackets i threshold == 0)
      by (apply Qle_antisym; assumption).
    rewrite H0. ring.
  - reflexivity.
Qed.

Lemma fold_bracket_steps :
  forall (suf pre : list Taxes.OrdinaryBracket) (tax : Q),
    brackets = pre ++ suf ->
    fold_left step (combine (seq (List.length pre) (List.length suf)) suf) tax
    == tax + Spec.Qsum
               (map (fun i => Spec.band taxable_income brackets i
                              * snd (nth i brackets (0, 0)))
                    (seq (List.length pre) (List.length suf))).
Proof.
  induction suf as [| [threshold rate] suf IH]; intros pre tax Hsplit.
  - simpl. ring.
  - cbn [List.length seq combine fold_left map Spec.Qsum fold_right].
    assert (Hnth : nth (List.length pre) brackets (0, 0) = (threshold, rate)).
    { rewrite Hsplit, app_nth2, Nat.sub_diag by lia. reflexivity. }
    assert (Hlt : (List.length pre < List.length brackets)%nat).
    { rewrite Hsplit, length_app. simpl. lia. }
    specialize (IH (pre ++ [(threshold, rate)])
                   (step tax (List.length pre, (threshold, rate)))).
    rewrite length_app in IH. cbn [List.length] in IH.
    rewrite Nat.add_1_r in IH.
    etransitivity; [apply IH; rewrite <- app_assoc; exact Hsplit |].
    rewrite bracket_step_adds.
    rewrite <- (amount_in_bracket_band (List.length pre) Hlt).
    rewrite Hnth. simpl. unfold Spec.Qsum. ring.
Qed.

(** The running total never decreases when the rates are not negative. *)
Lemma fold_bracket_steps_ge :
  forall (items : list (nat * Taxes.OrdinaryBracket)) (tax : Q),
    Forall (fun item => 0 <= snd (snd item)) items ->
    tax <= fold_left step items tax.
Proof.
  induction items as [| [i [threshold rate]] items IH]; intros tax Hr.
  - simpl. lra.
  - inversion Hr as [| ? ? Hrate Hrest]; subst. simpl in Hrate.
    cbn [fold_left]. eapply Qle_trans; [| apply IH; exact Hrest].
    rewrite bracket_step_adds.
    pose proof (amount_in_bracket_nonneg i threshold). nra.
Qed.

End Brackets.

Lemma enumerate_rates (brackets : list Taxes.OrdinaryBracket) :
  Forall (fun b => 0 <= snd b) brackets ->
  Forall (fun item : nat * Taxes.OrdinaryBracket => 0 <= snd (snd item))
         (Py.enumerate brackets).
Proof.
  intros H. apply Forall_forall. intros [i b] Hin.
  apply in_combine_r in Hin. rewrite Forall_forall in H. exact (H b Hin).
Qed.

Lemma apply_ordinary_brackets_nonneg (t : Q) (brackets : list Taxes.OrdinaryBracket) :
  Forall (fun b => 0 <= snd b) brackets ->
  0 <= Taxes._apply_ordinary_brackets t brackets.
Proof.
  intros H. unfold Taxes._apply_ordinary_brackets.
  destruct (Py.leb t 0); [lra |].
  eapply Qle_trans; [| apply fold_bracket_steps_ge, enumerate_rates, H]. lra.
Qed.

(** Above zero the loop computes the sum of the specification. *)
Lemma apply_ordinary_brackets_marginal (t : Q) (brackets : list Taxes.OrdinaryBracket) :
  0 < t ->
  Taxes._apply_ordinary_brackets t brackets == Spec.marginal_tax t brackets.
Proof.
  intros Ht. unfold Taxes._apply_ordinary_brackets, Spec.marginal_tax.
  replace (Py.leb t 0) with false by (symmetry; now apply leb_false).
  unfold Py.enumerate.
  rewrite (fold_bracket_steps t brackets brackets [] 0.0 eq_refl).
  simpl. lra.
Qed.

Lemma Qsum_zero (l : list Q) : Forall (fun x => x == 0) l -> Spec.Qsum l == 0.
Proof.
  induction 1 as [| x l Hx _ IH]; simpl; [reflexivity |].
  rewrite Hx, IH. ring.
Qed.

(** At or below zero every band is empty when no threshold is negative. *)
Lemma marginal_tax_nonpos (t : Q) (brackets : list Taxes.OrdinaryBracket) :
  Forall (fun b => 0 <= fst b) brackets ->
  t <= 0 ->
  Spec.marginal_tax t brackets == 0.
Proof.
  intros Hth Ht. unfold Spec.marginal_tax. apply Qsum_zero.
  apply Forall_forall. intros x Hx. apply in_map_iff in Hx.
  destruct Hx as [i [<- Hi]]. apply in_seq in Hi.
  assert (H0 : 0 <= fst (nth i brackets (0, 0))).
  { rewrite Forall_forall in Hth. apply Hth, nth_In. lia. }
  assert (Hb : Spec.band t brackets i == 0).
  { unfold Spec.band. destruct (S i =? List.length brackets)%nat; cbv zeta.
    - apply Q.max_l. lra.
    - apply Q.max_l.
      pose proof (Q.le_min_l t (fst (nth (S i) brackets (0, 0)))). lra. }
  rewrite Hb. ring.
Qed.

Lemma apply_ordinary_brackets_spec (t : Q) (brackets : list Taxes.OrdinaryBracket) :
  Forall (fun b => 0 <= fst b) brackets ->
  Taxes._apply_ordinary_brackets t brackets == Spec.marginal_tax t brackets.
Proof.
  intros Hth. destruct (Qlt_le_dec 0 t) as [Hpos | Hle].
  - now apply apply_ordinary_brackets_marginal.
  - rewrite (marginal_tax_nonpos t brackets Hth Hle).
    unfold Taxes._apply_ordinary_brackets.
    replace (Py.leb t 0) with true by (symmetry; now apply leb_true).
    reflexivity.
Qed.

(** ** The bracket tables *)

Lemma single_thresholds : Forall (fun b => 0 <= fst b) Taxes.FEDERAL_BRACKETS_SINGLE.
Proof. unfold Taxes.FEDERAL_BRACKETS_SINGLE. repeat constructor; simpl; lra. Qed.

Lemma married_thresholds : Forall (fun b => 0 <= fst b) Taxes.FEDERAL_BRACKETS_MARRIED.
Proof. unfold Taxes.FEDERAL_BRACKETS_MARRIED. repeat constructor; simpl; lra. Qed.

Lemma single_rates : Forall (fun b => 0 <= snd b) Taxes.FEDERAL_BRACKETS_SINGLE.
Proof. unfold Taxes.FEDERAL_BRACKETS_SINGLE. repeat constructor; simpl; lra. Qed.

Lemma married_rates : Forall (fun b => 0 <= snd b) Taxes.FEDERAL_BRACKETS_MARRIED.
Proof. unfold Taxes.FEDERAL_BRACKETS_MARRIED. repeat constructor; simpl; lra. Qed.

Lemma get_brackets_thresholds (fs : string) :
  Forall (fun b => 0 <= fst b) (Taxes._get_brackets fs).
Proof.
  unfold Taxes._get_brackets.
  destruct (String.eqb fs "married"); [apply married_thresholds | apply single_thresholds].
Qed.

Lemma get_brackets_rates (fs : string) :
  Forall (fun b => 0 <= snd b) (Taxes._get_brackets fs).
Proof.
  unfold Taxes._get_brackets.
  destruct (String.eqb fs "married"); [apply married_rates | apply single_rates].
Qed.

(** The filing status the estimator works with is one of the two it knows. *)
Lemma effective_filing_status_cases (ti : Taxes.TaxInput) :
  (Taxes.filing_status ti = "married"%string
   /\ Taxes.effective_filing_status ti = "married"%string)
  \/ (Taxes.filing_status ti <> "married"%string
      /\ Taxes.effective_filing_status ti = "single"%string).
Proof.
  unfold Taxes.effective_filing_status. cbn [existsb].
  destruct (String.eqb_spec (Taxes.filing_status ti) "married") as [Em | Em].
  - left. rewrite Bool.orb_true_r. cbn. auto.
  - right. split; [exact Em |].
    destruct (String.eqb_spec (Taxes.filing_status ti) "single") as [Es | Es];
      cbn; congruence.
Qed.

Lemma std_deduction_cases (ti : Taxes.TaxInput) :
  Taxes.std_deduction ti
  = if String.eqb (Taxes.filing_status ti) "married" then 29200.0 else 14600.0.
Proof.
  unfold Taxes.std_deduction.
  destruct (effective_filing_status_cases ti) as [[E1 E2] | [E1 E2]]; rewrite E2.
  - rewrite E1. reflexivity.
  - apply String.eqb_neq in E1. rewrite E1. reflexivity.
Qed.

(** ** Monotonicity and positivity of the bracket loop *)

Lemma amount_in_bracket_mono (t1 t2 : Q) (brackets : list Taxes.OrdinaryBracket)
      (i : nat) (threshold : Q) :
  t1 <= t2 ->
  Taxes.amount_in_bracket t1 brackets i threshold
  <= Taxes.amount_in_bracket t2 brackets i threshold.
Proof.
  intros H. unfold Taxes.amount_in_bracket.
  destruct (i + 1 <? List.length brackets)%nat; cbv zeta; py_cases; lra.
Qed.

Lemma fold_bracket_steps_mono (t1 t2 : Q) (brackets : list Taxes.OrdinaryBracket) :
  t1 <= t2 ->
  forall (items : list (nat * Taxes.OrdinaryBracket)) (tax1 tax2 : Q),
    Forall (fun item => 0 <= snd (snd item)) items ->
    tax1 <= tax2 ->
    fold_left (Taxes.bracket_step t1 brackets) items tax1
    <= fold_left (Taxes.bracket_step t2 brackets) items tax2.
Proof.
  intros Ht. induction items as [| [i [threshold rate]] items IH]; intros tax1 tax2 Hr Htax.
  - exact Htax.
  - inversion Hr as [| ? ? Hrate Hrest]; subst. simpl in Hrate.
    cbn [fold_left]. apply IH; [exact Hrest |].
    rewrite !bracket_step_adds.
    pose proof (amount_in_bracket_mono t1 t2 brackets i threshold Ht).
    pose proof (amount_in_bracket_nonneg t1 brackets i threshold).
    nra.
Qed.

Lemma apply_ordinary_brackets_mono (t1 t2 : Q) (brackets : list Taxes.OrdinaryBracket) :
  Forall (fun b => 0 <= snd b) brackets ->
  t1 <= t2 ->
  Taxes._apply_ordinary_brackets t1 brackets <= Taxes._apply_ordinary_brackets t2 brackets.
Proof.
  intros Hr Ht.
  pose proof (apply_ordinary_brackets_nonneg t2 brackets Hr) as Hnn.
  unfold Taxes._apply_ordinary_brackets in *.
  destruct (Py.leb t1 0) eqn:E1.
  - lra.
  - apply leb_false in E1.
    replace (Py.leb t2 0) with false by (symmetry; apply leb_false; lra).
    apply fold_bracket_steps_mono; [exact Ht | apply enumerate_rates, Hr | lra].
Qed.

(** A table that starts at threshold zero with a positive rate taxes every
    positive income. *)
Lemma apply_ordinary_brackets_pos (t r0 t1 r1 : Q) (rest : list Taxes.OrdinaryBracket) :
  0 < t -> 0 < r0 -> 0 < t1 ->
  Forall (fun b => 0 <= snd b) ((t1, r1) :: rest) ->
  0 < Taxes._apply_ordinary_brackets t ((0.0, r0) :: (t1, r1) :: rest).
Proof.
  intros Ht Hr0 Ht1 Hr. unfold Taxes._apply_ordinary_brackets.
  replace (Py.leb t 0) with false by (symmetry; now apply leb_false).
  unfold Py.enumerate. cbn [List.length seq combine].
  lazymatch goal with
  | |- _ < fold_left ?f (?x :: ?l) ?a => change (0 < fold_left f l (f a x))
  end.
  eapply Qlt_le_trans; [| apply fold_bracket_steps_ge].
  - rewrite bracket_step_adds. unfold Taxes.amount_in_bracket.
    cbn [List.length Nat.add Nat.ltb Nat.leb nth fst]. py_cases; nra.
  - apply Forall_forall. intros [i b] Hin.
    change (In (i, b) (combine (seq 1 (List.length ((t1, r1) :: rest)))
                               ((t1, r1) :: rest))) in Hin.
    apply in_combine_r in Hin.
    rewrite Forall_forall in Hr. exact (Hr b Hin).
Qed.

Lemma federal_ordinary_tax_pos (ti : Taxes.TaxInput) :
  0 < Taxes.taxable_ordinary ti -> 0 < Taxes.federal_ordinary_tax ti.
Proof.
  intros H. unfold Taxes.federal_ordinary_tax, Taxes._get_brackets.
  destruct (String.eqb _ "married").
  - apply apply_ordinary_brackets_pos; try lra.
    repeat constructor; simpl; lra.
  - apply apply_ordinary_brackets_pos; try lra.
    repeat constructor; simpl; lra.
Qed.

Lemma federal_ordinary_tax_nonneg (ti : Taxes.TaxInput) :
  0 <= Taxes.federal_ordinary_tax ti.
Proof. apply apply_ordinary_brackets_nonneg, get_brackets_rates. Qed.

(** ** The tax estimator *)

Lemma state_tax_value (ti : Taxes.TaxInput) :
  Taxes.state_tax (Taxes.compute_taxes ti)
  = Py.max 0.0 (Taxes.total_income ti) * Py.max 0.0 (Taxes.state_rate ti).
Proof. reflexivity. Qed.

Lemma total_tax_value (ti : Taxes.TaxInput) :
  Taxes.total_tax (Taxes.compute_taxes ti)
  = Taxes.federal_ordinary_tax ti + Taxes.federal_capital_tax ti
    + Py.max 0.0 (Taxes.total_income ti) * Py.max 0.0 (Taxes.state_rate ti).
Proof. reflexivity. Qed.

Lemma federal_capital_tax_nonneg (ti : Taxes.TaxInput) :
  0 <= Taxes.federal_capital_tax ti.
Proof.
  unfold Taxes.federal_capital_tax, Taxes.capital_gains_rate. py_cases; lra.
Qed.

(** C5.  [compute_taxes] taxes ordinary income by marginal brackets: the
    taxed amount is the ordinary income less the standard deduction of the
    filing status (29200 for "married", 14600 otherwise), floored at zero,
    and the federal tax is the sum over the brackets of
    [max(0, min(taxable, t_{i+1}) - t_i) * r_i] (the last bracket
    open-ended) plus 0.15 of the capital gains floored at zero.  For a
    single filer with ordinary income 60000, no capital gains and state
    rate 0 the taxed amount is 45400, [total_tax] is 5216 and
    [effective_rate] is 5216/60000, in exact arithmetic and on binary64
    numbers alike. *)
Theorem compute_taxes_marginal_brackets :
  (forall ti : Taxes.TaxInput,
      let r := Taxes.compute_taxes ti in
      let deduction :=
        if String.eqb (Taxes.filing_status ti) "married" then 29200 else 14600 in
      let table :=
        if String.eqb (Taxes.filing_status ti) "married"
        then Taxes.FEDERAL_BRACKETS_MARRIED else Taxes.FEDERAL_BRACKETS_SINGLE in
      Taxes.ordinary_income_taxed r == Qmax 0 (Taxes.ordinary_income ti - deduction)
      /\ Taxes.federal_tax r
         == Spec.marginal_tax (Taxes.ordinary_income_taxed r) table
            + Qmax 0 (Taxes.capital_gains_income ti) * 0.15)
  /\ (let r := Taxes.compute_taxes Inputs.single_60000 in
      Taxes.ordinary_income_taxed r == 45400
      /\ Taxes.total_tax r == 5216
      /\ Taxes.effective_rate r == 5216 / 60000)
  /\ (let r := Binary64.compute_taxes Inputs.single_60000_binary64 in
      Binary64.ordinary_income_taxed r = 45400%float
      /\ Binary64.total_tax r = 5216%float
      /\ Binary64.effective_rate r = (5216 / 60000)%float).
Proof.
  split; [| split].
  - intros ti r deduction table. subst r. split.
    + cbn [Taxes.compute_taxes Taxes.ordinary_income_taxed].
      unfold Taxes.taxable_ordinary. rewrite std_deduction_cases, max_is_Qmax.
      subst deduction.
      apply Q.max_compat; [reflexivity |].
      destruct (String.eqb _ "married"); lra.
    + cbn [Taxes.compute_taxes Taxes.ordinary_income_taxed Taxes.federal_tax].
      unfold Taxes.federal_ordinary_tax, Taxes.federal_capital_tax,
        Taxes.capital_gains_rate.
      rewrite apply_ordinary_brackets_spec by apply get_brackets_thresholds.
      rewrite max0_is_Qmax.
      assert (Htable : Taxes._get_brackets (Taxes.effective_filing_status ti) = table).
      { subst table. unfold Taxes._get_brackets.
        destruct (effective_filing_status_cases ti) as [[E1 E2] | [E1 E2]]; rewrite E2.
        - rewrite E1. reflexivity.
        - apply String.eqb_neq in E1. rewrite E1. reflexivity. }
      rewrite Htable. reflexivity.
  - vm_compute. repeat split.
  - vm_compute. repeat split.
Qed.

(** C6, as amended.  When the total income (ordinary plus capital gains)
    is not positive, [effective_rate] is 0 and so is the state tax;
    [total_tax] is then the federal tax alone, and it is 0 exactly when the
    ordinary income does not exceed the standard deduction and the capital
    gains are not positive. *)
Theorem compute_taxes_nonpositive_income (ti : Taxes.TaxInput) :
  Taxes.ordinary_income ti + Taxes.capital_gains_income ti <= 0 ->
  let r := Taxes.compute_taxes ti in
  Taxes.effective_rate r == 0
  /\ Taxes.state_tax r == 0
  /\ Taxes.total_tax r == Taxes.federal_tax r
  /\ (Taxes.total_tax r == 0
      <-> Taxes.ordinary_income ti <= Taxes.std_deduction ti
          /\ Taxes.capital_gains_income ti <= 0).
Proof.
  intros Hinc r. subst r.
  assert (Hstate : Taxes.state_tax (Taxes.compute_taxes ti) == 0).
  { rewrite state_tax_value. unfold Taxes.total_income. py_cases; lra. }
  assert (Htotal : Taxes.total_tax (Taxes.compute_taxes ti)
                   == Taxes.federal_ordinary_tax ti + Taxes.federal_capital_tax ti).
  { rewrite total_tax_value. rewrite state_tax_value in Hstate. lra. }
  split; [| split; [exact Hstate | split]].
  - cbn [Taxes.compute_taxes Taxes.effective_rate]. unfold Taxes.total_income.
    py_cases; lra.
  - rewrite Htotal. reflexivity.
  - rewrite Htotal.
    pose proof (federal_ordinary_tax_nonneg ti) as Hfo.
    pose proof (federal_capital_tax_nonneg ti) as Hfc.
    split.
    + intros Hzero. split.
      * destruct (Qlt_le_dec (Taxes.std_deduction ti) (Taxes.ordinary_income ti))
          as [Hgt | Hle]; [| exact Hle].
        assert (Hpos : 0 < Taxes.taxable_ordinary ti)
          by (unfold Taxes.taxable_ordinary; py_cases; lra).
        apply federal_ordinary_tax_pos in Hpos. lra.
      * destruct (Qlt_le_dec 0 (Taxes.capital_gains_income ti)) as [Hgt | Hle];
          [| exact Hle].
        revert Hfc Hzero. unfold Taxes.federal_capital_tax, Taxes.capital_gains_rate.
        py_cases; lra.
    + intros [Hoi Hcg].
      assert (Hfo0 : Taxes.federal_ordinary_tax ti == 0).
      { unfold Taxes.federal_ordinary_tax, Taxes.taxable_ordinary,
          Taxes._apply_ordinary_brackets.
        py_cases; lra. }
      assert (Hfc0 : Taxes.federal_capital_tax ti == 0).
      { unfold Taxes.federal_capital_tax, Taxes.capital_gains_rate. py_cases; lra. }
      lra.
Qed.

Lemma compute_taxes_nonpositive_income_witness :
  Taxes.total_tax (Taxes.compute_taxes Inputs.small_capital_loss) == 0
  <-> Taxes.ordinary_income Inputs.small_capital_loss
      <= Taxes.std_deduction Inputs.small_capital_loss
      /\ Taxes.capital_gains_income Inputs.small_capital_loss <= 0.
Proof.
  apply (compute_taxes_nonpositive_income Inputs.small_capital_loss).
  vm_compute. discriminate.
Defined.

(** C6, as stated, fails: with ordinary income 50000 and a capital loss of
    60000 the total income is -10000 and [total_tax] is 4016. *)
Lemma capital_loss_is_taxed :
  Taxes.ordinary_income Inputs.capital_loss
  + Taxes.capital_gains_income Inputs.capital_loss <= 0
  /\ Taxes.effective_rate (Taxes.compute_taxes Inputs.capital_loss) == 0
  /\ Taxes.total_tax (Taxes.compute_taxes Inputs.capital_loss) == 4016
  /\ ~ Taxes.total_tax (Taxes.compute_taxes Inputs.capital_loss) == 0.
Proof.
  vm_compute. repeat split; discriminate.
Qed.

(** C9.  [total_tax] is monotone in the ordinary income: of two inputs
    with the same filing status, state rate and capital gains, the one with
    the larger ordinary income owes at least as much. *)
Theorem compute_taxes_monotone (ti1 ti2 : Taxes.TaxInput) :
  Taxes.filing_status ti1 = Taxes.filing_status ti2 ->
  Taxes.state_rate ti1 == Taxes.state_rate ti2 ->
  Taxes.capital_gains_income ti1 == Taxes.capital_gains_income ti2 ->
  Taxes.ordinary_income ti1 <= Taxes.ordinary_income ti2 ->
  Taxes.total_tax (Taxes.compute_taxes ti1) <= Taxes.total_tax (Taxes.compute_taxes ti2).
Proof.
  intros Hfs Hsr Hcg Hoi. rewrite !total_tax_value.
  assert (Hefs : Taxes.effective_filing_status ti1 = Taxes.effective_filing_status ti2)
    by (unfold Taxes.effective_filing_status; rewrite Hfs; reflexivity).
  assert (Hded : Taxes.std_deduction ti1 = Taxes.std_deduction ti2)
    by (unfold Taxes.std_deduction; rewrite Hefs; reflexivity).
  assert (Hord : Taxes.federal_ordinary_tax ti1 <= Taxes.federal_ordinary_tax ti2).
  { unfold Taxes.federal_ordinary_tax. rewrite Hefs.
    apply apply_ordinary_brackets_mono; [apply get_brackets_rates |].
    unfold Taxes.taxable_ordinary. rewrite Hded. py_cases; lra. }
  assert (Hcap : Taxes.federal_capital_tax ti1 == Taxes.federal_capital_tax ti2).
  { unfold Taxes.federal_capital_tax, Taxes.capital_gains_rate. py_cases; lra. }
  assert (Hst : Py.max 0.0 (Taxes.total_income ti1) * Py.max 0.0 (Taxes.state_rate ti1)
                <= Py.max 0.0 (Taxes.total_income ti2) * Py.max 0.0 (Taxes.state_rate ti2)).
  { unfold Taxes.total_income. py_cases; nra. }
  lra.
Qed.

Lemma compute_taxes_monotone_witness :
  Taxes.total_tax (Taxes.compute_taxes Inputs.married_80000)
  <= Taxes.total_tax (Taxes.compute_taxes Inputs.married_90000).
Proof.
  apply (compute_taxes_monotone Inputs.married_80000 Inputs.married_90000).
  - reflexivity.
  - reflexivity.
  - reflexivity.
  - vm_compute. discriminate.
Defined.

(** C10.  [capital_gains_taxed] is the capital-gains income as given,
    whatever its sign, while the capital-gains tax is 0.15 of that income
    floored at zero; with a capital loss of 1000 the field is -1000 and the
    capital-gains tax, the federal tax and the total tax are all 0. *)
Theorem capital_gains_taxed_is_raw_input :
  (forall ti : Taxes.TaxInput,
      Taxes.capital_gains_taxed (Taxes.compute_taxes ti) = Taxes.capital_gains_income ti
      /\ Taxes.federal_capital_tax ti == Qmax 0 (Taxes.capital_gains_income ti) * 0.15
      /\ Taxes.federal_tax (Taxes.compute_taxes ti)
         == Taxes.federal_ordinary_tax ti + Taxes.federal_capital_tax ti)
  /\ (let r := Taxes.compute_taxes Inputs.small_capital_loss in
      Taxes.capital_gains_taxed r == -1000
      /\ Taxes.capital_gains_taxed r < 0
      /\ Taxes.federal_capital_tax Inputs.small_capital_loss == 0
      /\ Taxes.federal_tax r == 0
      /\ Taxes.total_tax r == 0).
Proof.
  split.
  - intros ti. split; [reflexivity | split; [| reflexivity]].
    unfold Taxes.federal_capital_tax, Taxes.capital_gains_rate.
    rewrite max0_is_Qmax. reflexivity.
  - vm_compute. repeat split.
Qed.

(** ** The year sequence *)

Lemma range_length (lo hi : Z) : List.length (Py.range lo hi) = Z.to_nat (hi - lo).
Proof. unfold Py.range. now rewrite length_map, length_seq. Qed.

Lemma range_nth (lo hi : Z) (k : nat) :
  (k < Z.to_nat (hi - lo))%nat ->
  nth k (Py.range lo hi) 0%Z = (lo + Z.of_nat k)%Z.
Proof.
  intros Hk. unfold Py.range.
  pose proof (map_nth (fun i => (lo + Z.of_nat i)%Z)
                      (seq 0 (Z.to_nat (hi - lo))) 0%nat k) as E.
  cbv beta in E. rewrite seq_nth in E by exact Hk.
  rewrite Nat.add_0_l in E.
  rewrite <- E. apply nth_indep. now rewrite length_map, length_seq.
Qed.

Lemma range_bounds (lo hi age : Z) : In age (Py.range lo hi) <-> (lo <= age < hi)%Z.
Proof.
  unfold Py.range. rewrite in_map_iff. split.
  - intros [i [<- Hi]]. apply in_seq in Hi. lia.
  - intros H. exists (Z.to_nat (age - lo)). split; [lia |]. apply in_seq. lia.
Qed.

(** [_year_sequence] lists the ages from [current_age] to [end_age], one
    by one. *)
Lemma year_sequence_length (config : Calculations.ProjectionConfig) :
  (Calculations.current_age config <= Calculations.end_age config)%Z ->
  Z.of_nat (List.length (Calculations._year_sequence config))
  = (Calculations.end_age config - Calculations.current_age config + 1)%Z.
Proof.
  intros H. unfold Calculations._year_sequence. rewrite range_length. lia.
Qed.

Lemma year_sequence_nth (config : Calculations.ProjectionConfig) (k : nat) :
  (k < List.length (Calculations._year_sequence config))%nat ->
  nth k (Calculations._year_sequence config) 0%Z
  = (Calculations.current_age config + Z.of_nat k)%Z.
Proof.
  unfold Calculations._year_sequence. rewrite range_length. apply range_nth.
Qed.

(** ** One year of the loop *)

Section Year.

Variable config : Calculations.ProjectionConfig.
Variables balance_401k balance_brokerage : Q.
Variable age : Z.

Let l := Calculations.year_locals config balance_401k balance_brokerage age.

Lemma year_locals_is_retirement_year :
  Calculations.Locals.is_retirement_year l
  = (Calculations.retire_age config <=? age)%Z.
Proof.
  unfold l, Calculations.year_locals.
  destruct (Calculations.retire_age config <=? age)%Z; [| reflexivity].
  destruct (String.eqb _ "brokerage_first"); reflexivity.
Qed.

Lemma year_locals_year_index :
  Calculations.Locals.year_index l = (age - Calculations.current_age config)%Z.
Proof.
  unfold l, Calculations.year_locals.
  destruct (Calculations.retire_age config <=? age)%Z; [| reflexivity].
  destruct (String.eqb _ "brokerage_first"); reflexivity.
Qed.

Lemma year_locals_social_security_income :
  Calculations.Locals.social_security_income l
  = if (Calculations.retire_age config <=? age)%Z && (62 <=? age)%Z
    then Calculations.SOCIAL_SECURITY_MAX_AGE_62
         * (1 + Calculations.SOCIAL_SECURITY_COLA) ^ (age - 62)
    else 0.0.
Proof.
  unfold l, Calculations.year_locals.
  destruct (Calculations.retire_age config <=? age)%Z; [| reflexivity].
  destruct (String.eqb _ "brokerage_first"); reflexivity.
Qed.

(** The call [TaxInput(...)] of a retirement year passes a keyword the
    dataclass does not declare. *)
Lemma tax_input_call_raises :
  Taxes.TaxInput_init (Calculations.tax_input_kwargs config l)
  = Py.Raise (Py.TypeError_unexpected_keyword "TaxInput.__init__"
                                              "social_security_income").
Proof. reflexivity. Qed.

Lemma year_body_working :
  (age < Calculations.retire_age config)%Z ->
  Calculations.year_body config balance_401k balance_brokerage age
  = Py.Return (Calculations.make_row age l None,
               (Calculations.Locals.balance_401k l,
                Calculations.Locals.balance_brokerage l)).
Proof.
  intros H. unfold Calculations.year_body. fold l.
  rewrite year_locals_is_retirement_year.
  replace (Calculations.retire_age config <=? age)%Z with false
    by (symmetry; apply Z.leb_gt; exact H).
  reflexivity.
Qed.

Lemma year_body_retired :
  (Calculations.retire_age config <= age)%Z ->
  Calculations.year_body config balance_401k balance_brokerage age
  = Py.Raise (Py.TypeError_unexpected_keyword "TaxInput.__init__"
                                              "social_security_income").
Proof.
  intros H. unfold Calculations.year_body. fold l.
  rewrite year_locals_is_retirement_year.
  replace (Calculations.retire_age config <=? age)%Z with true
    by (symmetry; apply Z.leb_le; exact H).
  rewrite tax_input_call_raises. reflexivity.
Qed.

(** Whatever the body returns is the row of the year's locals. *)
Lemma year_body_returns (row : Calculations.Row.t) (b1 b2 : Q) :
  Calculations.year_body config balance_401k balance_brokerage age
  = Py.Return (row, (b1, b2)) ->
  (exists tax_result, row = Calculations.make_row age l tax_result)
  /\ b1 = Calculations.Locals.balance_401k l
  /\ b2 = Calculations.Locals.balance_brokerage l.
Proof.
  destruct (Z.lt_ge_cases age (Calculations.retire_age config)) as [Hw | Hr].
  - rewrite (year_body_working Hw). intros E. inversion E. eauto.
  - rewrite (year_body_retired Hr). discriminate.
Qed.

End Year.

(** ** The loop *)

Section Loop.

Variable config : Calculations.ProjectionConfig.

Let error : Py.Exception :=
  Py.TypeError_unexpected_keyword "TaxInput.__init__" "social_security_income".

(** The loop stops with the exception at the first retirement year. *)
Lemma projection_loop_raises :
  forall (years : list Z) (b1 b2 : Q) (rows : list Calculations.Row.t),
    Exists (fun age => (Calculations.retire_age config <= age)%Z) years ->
    Calculations.projection_loop config years b1 b2 rows = Py.Raise error.
Proof.
  induction years as [| age years IH]; intros b1 b2 rows Hex.
  - inversion Hex.
  - cbn [Calculations.projection_loop].
    destruct (Z.lt_ge_cases age (Calculations.retire_age config)) as [Hw | Hr].
    + rewrite (year_body_working config b1 b2 age Hw). cbn [Py.bind].
      apply IH. inversion Hex as [? ? Hhead | ? ? Htail]; [lia | exact Htail].
    + rewrite (year_body_retired config b1 b2 age Hr). reflexivity.
Qed.

(** Without a retirement year the loop appends one row for each age. *)
Lemma projection_loop_returns :
  forall (years : list Z) (b1 b2 : Q) (rows : list Calculations.Row.t),
    Forall (fun age => (age < Calculations.retire_age config)%Z) years ->
    exists new : list Calculations.Row.t,
      Calculations.projection_loop config years b1 b2 rows = Py.Return (rows ++ new)
      /\ map Calculations.Row.age new = years
      /\ Forall (fun r => Calculations.Row.year_index r
                          = (Calculations.Row.age r
                             - Calculations.current_age config)%Z) new.
Proof.
  induction years as [| age years IH]; intros b1 b2 rows Hall.
  - exists []. rewrite app_nil_r. repeat split. constructor.
  - inversion Hall as [| ? ? Hw Hrest]; subst.
    cbn [Calculations.projection_loop].
    rewrite (year_body_working config b1 b2 age Hw). cbn [Py.bind].
    set (l := Calculations.year_locals config b1 b2 age).
    destruct (IH (Calculations.Locals.balance_401k l)
                 (Calculations.Locals.balance_brokerage l)
                 (rows ++ [Calculations.make_row age l None]) Hrest)
      as [new [Hrun [Hages Hidx]]].
    exists (Calculations.make_row age l None :: new).
    rewrite Hrun, <- app_assoc. repeat split.
    + cbn. now rewrite Hages.
    + constructor; [| exact Hidx]. cbn. apply year_locals_year_index.
Qed.

(** An invariant [I] of the balances and a property [R] of the rows: when
    every year keeps [I] and yields a row with [R], every row of a run
    that returns has [R]. *)
Lemma projection_loop_invariant (I : Q -> Q -> Prop) (R : Calculations.Row.t -> Prop) :
  (forall (b1 b2 : Q) (age : Z),
      I b1 b2 ->
      let l := Calculations.year_locals config b1 b2 age in
      I (Calculations.Locals.balance_401k l) (Calculations.Locals.balance_brokerage l)
      /\ forall tax_result, R (Calculations.make_row age l tax_result)) ->
  forall (years : list Z) (b1 b2 : Q) (rows out : list Calculations.Row.t),
    I b1 b2 -> Forall R rows ->
    Calculations.projection_loop config years b1 b2 rows = Py.Return out ->
    Forall R out.
Proof.
  intros Hstep. induction years as [| age years IH]; intros b1 b2 rows out HI HR Hrun.
  - cbn in Hrun. inversion Hrun. subst. exact HR.
  - cbn [Calculations.projection_loop] in Hrun.
    destruct (Calculations.year_body config b1 b2 age) as [[row [b1' b2']] | e] eqn:E;
      cbn [Py.bind] in Hrun; [| discriminate].
    apply year_body_returns in E. destruct E as [[tr Hrow] [Hb1 Hb2]].
    destruct (Hstep b1 b2 age HI) as [HI' HR']. subst.
    eapply IH; [exact HI' | | exact Hrun].
    apply Forall_app. split; [exact HR |]. constructor; [apply HR' | constructor].
Qed.

(** [run_projection] raises as soon as the age range holds a retirement
    year. *)
Lemma run_projection_raises :
  (Calculations.current_age config <= Calculations.end_age config)%Z ->
  (Calculations.retire_age config <= Calculations.end_age config)%Z ->
  Calculations.run_projection config = Py.Raise error.
Proof.
  intros Hrange Hret. unfold Calculations.run_projection.
  apply projection_loop_raises. apply Exists_exists.
  exists (Calculations.end_age config). split; [| exact Hret].
  unfold Calculations._year_sequence. apply range_bounds. lia.
Qed.

(** It returns one record for each age when the range ends before the
    retirement age. *)
Lemma run_projection_returns :
  (Calculations.end_age config < Calculations.retire_age config)%Z ->
  exists rows : list Calculations.Row.t,
    Calculations.run_projection config = Py.Return rows
    /\ map Calculations.Row.age rows = Calculations._year_sequence config
    /\ Forall (fun r => Calculations.Row.year_index r
                        = (Calculations.Row.age r
                           - Calculations.current_age config)%Z) rows.
Proof.
  intros H. unfold Calculations.run_projection.
  apply (projection_loop_returns (Calculations._year_sequence config)
           (Calculations.current_401k_balance config)
           (Calculations.current_brokerage_balance config) []).
  apply Forall_forall. intros age Hin.
  unfold Calculations._year_sequence in Hin. apply range_bounds in Hin. lia.
Qed.

End Loop.

(** ** The projection *)

(** C1.  What the code does on a well-formed configuration
    ([current_age <= retire_age <= end_age]): the first retirement year
    calls [TaxInput] with the keyword [social_security_income], which the
    dataclass does not declare, and [run_projection] ends with that
    [TypeError] instead of returning the records. *)
Theorem run_projection_well_formed_raises (config : Calculations.ProjectionConfig) :
  (Calculations.current_age config <= Calculations.retire_age config)%Z ->
  (Calculations.retire_age config <= Calculations.end_age config)%Z ->
  Calculations.run_projection config
  = Py.Raise (Py.TypeError_unexpected_keyword "TaxInput.__init__"
                                              "social_security_income").
Proof.
  intros H1 H2. apply run_projection_raises; lia.
Qed.

Lemma run_projection_well_formed_raises_witness :
  Calculations.run_projection Inputs.retiring
  = Py.Raise (Py.TypeError_unexpected_keyword "TaxInput.__init__"
                                              "social_security_income").
Proof.
  apply (run_projection_well_formed_raises Inputs.retiring).
  - vm_compute. discriminate.
  - vm_compute. discriminate.
Defined.

(** C2.  What the code does for ages 64 to 66 with retirement at 65: the
    year sequence holds the three ages, the year of age 64 yields its
    record, and the run raises at age 65, so that no record is returned
    where the claim counts three. *)
Theorem retiring_projection_returns_no_records :
  (Calculations.current_age Inputs.retiring <= Calculations.end_age Inputs.retiring)%Z
  /\ Calculations._year_sequence Inputs.retiring = [64; 65; 66]%Z
  /\ (exists row,
         Calculations.year_body Inputs.retiring 100000 0 64
         = Py.Return (row, (Calculations.Row.balance_401k row,
                            Calculations.Row.balance_brokerage row))
         /\ Calculations.Row.age row = 64%Z
         /\ Calculations.Row.year_index row = 0%Z)
  /\ Calculations.run_projection Inputs.retiring
     = Py.Raise (Py.TypeError_unexpected_keyword "TaxInput.__init__"
                                                 "social_security_income").
Proof.
  split; [vm_compute; discriminate |].
  split; [reflexivity |].
  split; [| reflexivity].
  exists (Calculations.make_row
            64 (Calculations.year_locals Inputs.retiring 100000 0 64) None).
  split; [| split; reflexivity].
  apply year_body_working. reflexivity.
Qed.

(** C3, as amended.  In a retirement year the withdrawal total is the sum
    of the two post-growth balances times [swr]; under "brokerage_first"
    the brokerage withdrawal is the minimum of the total and the
    post-growth brokerage balance, under "tax_deferred_first" the 401k
    withdrawal is the minimum of the total and the post-growth 401k
    balance; the two withdrawals add up to the total; and both are
    non-negative exactly when the total and the post-growth balance of the
    account drawn first are non-negative. *)
Theorem withdrawal_order_law (config : Calculations.ProjectionConfig)
        (balance_401k balance_brokerage : Q) (age : Z) :
  (Calculations.retire_age config <= age)%Z ->
  let l := Calculations.year_locals config balance_401k balance_brokerage age in
  let total := Calculations.Locals.withdrawal_total l in
  let from_401k := Calculations.Locals.withdrawal_401k l in
  let from_brokerage := Calculations.Locals.withdrawal_brokerage l in
  let post_growth_401k := Calculations.Locals.post_growth_401k l in
  let post_growth_brokerage := Calculations.Locals.post_growth_brokerage l in
  total == (post_growth_401k + post_growth_brokerage) * Calculations.swr config
  /\ (Calculations.withdrawal_order config = "brokerage_first"%string ->
      from_brokerage == Qmin total post_growth_brokerage)
  /\ (Calculations.withdrawal_order config = "tax_deferred_first"%string ->
      from_401k == Qmin total post_growth_401k)
  /\ from_401k + from_brokerage == total
  /\ (0 <= from_401k /\ 0 <= from_brokerage
      <-> 0 <= total
          /\ 0 <= (if String.eqb (Calculations.withdrawal_order config) "brokerage_first"
                   then post_growth_brokerage else post_growth_401k)).
Proof.
  intros Hret. unfold Calculations.year_locals.
  replace (Calculations.retire_age config <=? age)%Z with true
    by (symmetry; apply Z.leb_le; exact Hret).
  cbn [negb andb].
  destruct (String.eqb_spec (Calculations.withdrawal_order config) "brokerage_first")
    as [Eo | Eo]; cbv zeta; cbn [Calculations.Locals.withdrawal_total
      Calculations.Locals.withdrawal_401k Calculations.Locals.withdrawal_brokerage
      Calculations.Locals.post_growth_401k Calculations.Locals.post_growth_brokerage].
  all: set (p1 := balance_401k * (1 + Calculations.real_return_401k config)).
  all: set (p2 := balance_brokerage * (1 + Calculations.real_return_brokerage config)).
  all: set (total := (p1 + p2) * Calculations.swr config).
  all: clearbody total p1 p2.
  - split; [reflexivity |]. split; [intros _; apply min_is_Qmin |].
    split; [rewrite Eo; discriminate |].
    destruct (min_cases total p2) as [[H E] | [H E]]; rewrite E;
      (split; [ring | split; intros [? ?]; split; lra]).
  - split; [reflexivity |]. split; [intros E; contradiction |].
    split; [intros _; apply min_is_Qmin |].
    destruct (min_cases total p1) as [[H E] | [H E]]; rewrite E;
      (split; [ring | split; intros [? ?]; split; lra]).
Qed.

Lemma withdrawal_order_law_witness :
  let l := Calculations.year_locals Inputs.brokerage_first 300000 600000 65 in
  Calculations.Locals.withdrawal_401k l + Calculations.Locals.withdrawal_brokerage l
  == Calculations.Locals.withdrawal_total l.
Proof.
  intros l.
  apply (withdrawal_order_law Inputs.brokerage_first 300000 600000 65).
  vm_compute. discriminate.
Defined.

(** C3, as stated, fails: with 100000 in the 401k, an overdrawn brokerage
    account of -50000, no growth, [swr] 0.04 and "brokerage_first", the
    year of age 65 is a retirement year, the withdrawal total is 2000 and
    the brokerage withdrawal is -50000. *)
Lemma overdrawn_withdrawal_is_negative :
  let l := Calculations.year_locals Inputs.overdrawn 100000 (-50000) 65 in
  Calculations.Locals.is_retirement_year l = true
  /\ Calculations.Locals.withdrawal_total l == 2000
  /\ Calculations.Locals.withdrawal_brokerage l == -50000
  /\ ~ 0 <= Calculations.Locals.withdrawal_brokerage l.
Proof.
  vm_compute. repeat split. intros H. apply H. reflexivity.
Qed.

(** One year keeps non-negative balances non-negative, and draws from
    neither account more than its post-growth balance. *)
Lemma year_locals_balances (config : Calculations.ProjectionConfig)
      (b1 b2 : Q) (age : Z) :
  0 <= Calculations.annual_401k_contribution config ->
  0 <= Calculations.annual_brokerage_contribution config ->
  -1 <= Calculations.real_return_401k config ->
  -1 <= Calculations.real_return_brokerage config ->
  0 <= Calculations.swr config ->
  Calculations.swr config <= 1 ->
  0 <= b1 -> 0 <= b2 ->
  let l := Calculations.year_locals config b1 b2 age in
  Calculations.Locals.withdrawal_401k l <= Calculations.Locals.post_growth_401k l
  /\ Calculations.Locals.withdrawal_brokerage l
     <= Calculations.Locals.post_growth_brokerage l
  /\ 0 <= Calculations.Locals.balance_401k l
  /\ 0 <= Calculations.Locals.balance_brokerage l.
Proof.
  intros Hc1 Hc2 Hr1 Hr2 Hs0 Hs1 Hb1 Hb2. unfold Calculations.year_locals.
  destruct (Calculations.retire_age config <=? age)%Z; cbn [negb andb].
  - set (p1 := b1 * (1 + Calculations.real_return_401k config)).
    set (p2 := b2 * (1 + Calculations.real_return_brokerage config)).
    assert (Hp1 : 0 <= p1) by (unfold p1; nra).
    assert (Hp2 : 0 <= p2) by (unfold p2; nra).
    set (total := (p1 + p2) * Calculations.swr config).
    assert (Ht0 : 0 <= total) by (unfold total; nra).
    assert (Ht1 : total <= p1 + p2) by (unfold total; nra).
    clearbody total p1 p2.
    destruct (String.eqb _ "brokerage_first"); cbv zeta;
      cbn [Calculations.Locals.withdrawal_401k Calculations.Locals.withdrawal_brokerage
           Calculations.Locals.post_growth_401k Calculations.Locals.post_growth_brokerage
           Calculations.Locals.balance_401k Calculations.Locals.balance_brokerage].
    + destruct (min_cases total p2) as [[H E] | [H E]]; rewrite E; repeat split; lra.
    + destruct (min_cases total p1) as [[H E] | [H E]]; rewrite E; repeat split; lra.
  - cbv zeta.
    cbn [Calculations.Locals.withdrawal_401k Calculations.Locals.withdrawal_brokerage
         Calculations.Locals.post_growth_401k Calculations.Locals.post_growth_brokerage
         Calculations.Locals.balance_401k Calculations.Locals.balance_brokerage].
    repeat split; nra.
Qed.

(** C4, as amended.  In exact arithmetic (rationals in place of binary64
    numbers): with non-negative starting balances and contributions, real
    returns of at least -1 and [swr] between 0 and 1, a year that starts
    with non-negative balances draws from neither account more than its
    post-growth balance and ends with non-negative balances, and every
    record of a run that returns has non-negative balances. *)
Theorem balances_never_negative (config : Calculations.ProjectionConfig) :
  0 <= Calculations.current_401k_balance config ->
  0 <= Calculations.current_brokerage_balance config ->
  0 <= Calculations.annual_401k_contribution config ->
  0 <= Calculations.annual_brokerage_contribution config ->
  -1 <= Calculations.real_return_401k config ->
  -1 <= Calculations.real_return_brokerage config ->
  0 <= Calculations.swr config ->
  Calculations.swr config <= 1 ->
  (forall (b1 b2 : Q) (age : Z),
      0 <= b1 -> 0 <= b2 ->
      let l := Calculations.year_locals config b1 b2 age in
      Calculations.Locals.withdrawal_401k l <= Calculations.Locals.post_growth_401k l
      /\ Calculations.Locals.withdrawal_brokerage l
         <= Calculations.Locals.post_growth_brokerage l
      /\ 0 <= Calculations.Locals.balance_401k l
      /\ 0 <= Calculations.Locals.balance_brokerage l)
  /\ (forall rows : list Calculations.Row.t,
         Calculations.run_projection config = Py.Return rows ->
         Forall (fun r => 0 <= Calculations.Row.balance_401k r
                          /\ 0 <= Calculations.Row.balance_brokerage r) rows).
Proof.
  intros Hb1 Hb2 Hc1 Hc2 Hr1 Hr2 Hs0 Hs1. split.
  - intros b1 b2 age H1 H2. now apply year_locals_balances.
  - intros rows Hrun. unfold Calculations.run_projection in Hrun.
    eapply (projection_loop_invariant config (fun b1 b2 => 0 <= b1 /\ 0 <= b2));
      [| split; [exact Hb1 | exact Hb2] | constructor | exact Hrun].
    intros b1 b2 age [H1 H2] l.
    destruct (year_locals_balances config b1 b2 age Hc1 Hc2 Hr1 Hr2 Hs0 Hs1 H1 H2)
      as [_ [_ [H3 H4]]].
    fold l in H3, H4. split; [split; assumption |].
    intros tr. cbn. split; assumption.
Qed.

Lemma balances_never_negative_witness :
  (let l := Calculations.year_locals Inputs.brokerage_first 300000 600000 65 in
   Calculations.Locals.is_retirement_year l = true
   /\ Calculations.Locals.withdrawal_401k l <= Calculations.Locals.post_growth_401k l
   /\ Calculations.Locals.withdrawal_brokerage l
      <= Calculations.Locals.post_growth_brokerage l
   /\ 0 <= Calculations.Locals.balance_401k l
   /\ 0 <= Calculations.Locals.balance_brokerage l)
  /\ Forall (fun r => 0 <= Calculations.Row.balance_401k r
                      /\ 0 <= Calculations.Row.balance_brokerage r)
            Inputs.saving_rows.
Proof.
  split.
  - destruct (balances_never_negative Inputs.brokerage_first) as [Hyear _];
      try (vm_compute; discriminate).
    split; [reflexivity |].
    apply (Hyear 300000 600000 65%Z); vm_compute; discriminate.
  - destruct (balances_never_negative Inputs.saving) as [_ Hrun];
      try (vm_compute; discriminate).
    apply Hrun. vm_compute. reflexivity.
Defined.

(** C4, as stated, fails on binary64 numbers: with 0.1 in the 401k and 0.2
    in the brokerage account, no contribution, no growth, [swr] 1.0 and
    "brokerage_first" every hypothesis of the claim holds; in the
    retirement year of age 65 the post-growth balances 0.1 and 0.2 add up
    to 0.30000000000000004, the brokerage account gives 0.2, the 401k is
    asked for 0.10000000000000003, more than the 0.1 it holds, and ends
    the year at -2.7755575615628914e-17. *)
Lemma withdraw_all_overdraws_401k :
  let config := Binary64Year.withdraw_all in
  let l := Binary64Year.year_locals config
             (Binary64Year.current_401k_balance config)
             (Binary64Year.current_brokerage_balance config) 65 in
  (PrimFloat.leb 0 (Binary64Year.current_401k_balance config) = true
   /\ PrimFloat.leb 0 (Binary64Year.current_brokerage_balance config) = true
   /\ PrimFloat.leb 0 (Binary64Year.annual_401k_contribution config) = true
   /\ PrimFloat.leb 0 (Binary64Year.annual_brokerage_contribution config) = true
   /\ PrimFloat.leb (-1) (Binary64Year.real_return_401k config) = true
   /\ PrimFloat.leb (-1) (Binary64Year.real_return_brokerage config) = true
   /\ PrimFloat.leb 0 (Binary64Year.swr config) = true
   /\ PrimFloat.leb (Binary64Year.swr config) 1 = true)
  /\ Binary64Year.Locals.is_retirement_year l = true
  /\ Binary64Year.Locals.post_growth_401k l = 0.1%float
  /\ Binary64Year.Locals.withdrawal_total l = 0.30000000000000004%float
  /\ Binary64Year.Locals.withdrawal_401k l = 0.10000000000000003%float
  /\ PrimFloat.ltb (Binary64Year.Locals.post_growth_401k l)
                   (Binary64Year.Locals.withdrawal_401k l) = true
  /\ Binary64Year.Locals.balance_401k l = (-2.7755575615628914e-17)%float
  /\ PrimFloat.ltb (Binary64Year.Locals.balance_401k l) 0 = true.
Proof.
  vm_compute. repeat split.
Qed.

(** C7.  A year before the retirement age yields its record without
    raising; the record has the six fields [withdrawal_total],
    [withdrawal_401k], [withdrawal_brokerage], [social_security_income],
    [tax_total] and [net_income_after_tax] at 0, and each end-of-year
    balance is the balance carried into the year plus the annual
    contribution, times one plus the real return; these balances are the
    ones carried into the next year. *)
Theorem working_year_record (config : Calculations.ProjectionConfig)
        (balance_401k balance_brokerage : Q) (age : Z) :
  (age < Calculations.retire_age config)%Z ->
  exists row : Calculations.Row.t,
    Calculations.year_body config balance_401k balance_brokerage age
    = Py.Return (row, (Calculations.Row.balance_401k row,
                       Calculations.Row.balance_brokerage row))
    /\ Calculations.Row.age row = age
    /\ Calculations.Row.is_retirement_year row = false
    /\ Calculations.Row.withdrawal_total row == 0
    /\ Calculations.Row.withdrawal_401k row == 0
    /\ Calculations.Row.withdrawal_brokerage row == 0
    /\ Calculations.Row.social_security_income row == 0
    /\ Calculations.Row.tax_total row == 0
    /\ Calculations.Row.net_income_after_tax row == 0
    /\ Calculations.Row.balance_401k row
       == (balance_401k + Calculations.annual_401k_contribution config)
          * (1 + Calculations.real_return_401k config)
    /\ Calculations.Row.balance_brokerage row
       == (balance_brokerage + Calculations.annual_brokerage_contribution config)
          * (1 + Calculations.real_return_brokerage config).
Proof.
  intros Hw.
  exists (Calculations.make_row
            age (Calculations.year_locals config balance_401k balance_brokerage age) None).
  split; [now apply year_body_working |].
  unfold Calculations.year_locals.
  replace (Calculations.retire_age config <=? age)%Z with false
    by (symmetry; apply Z.leb_gt; exact Hw).
  cbn. repeat split; reflexivity.
Qed.

Lemma working_year_record_witness :
  exists row : Calculations.Row.t,
    Calculations.year_body Inputs.saving 100000 50000 60
    = Py.Return (row, (Calculations.Row.balance_401k row,
                       Calculations.Row.balance_brokerage row))
    /\ Calculations.Row.tax_total row == 0
    /\ Calculations.Row.balance_401k row == 110250.
Proof.
  destruct (working_year_record Inputs.saving 100000 50000 60) as [row H].
  - vm_compute. reflexivity.
  - exists row. destruct H as [Hbody [_ [_ [_ [_ [_ [_ [Htax [_ [Hbal _]]]]]]]]]].
    split; [exact Hbody | split; [exact Htax |]].
    rewrite Hbal. vm_compute. reflexivity.
Defined.

(** C8.  In every simulated year the Social Security income is
    41000 * 1.025^(age - 62) when the year is a retirement year and the age
    is at least 62, and 0 otherwise: it depends on the age and on
    [retire_age] alone ([ProjectionConfig] declares no
    [social_security_start_age] and nothing of the kind is read).  The
    records of a run that returns carry that value. *)
Theorem social_security_income_formula (config : Calculations.ProjectionConfig) :
  (forall (balance_401k balance_brokerage : Q) (age : Z),
      Calculations.Locals.social_security_income
        (Calculations.year_locals config balance_401k balance_brokerage age)
      == if (Calculations.retire_age config <=? age)%Z && (62 <=? age)%Z
         then 41000 * 1.025 ^ (age - 62) else 0)
  /\ (forall rows : list Calculations.Row.t,
         Calculations.run_projection config = Py.Return rows ->
         Forall (fun r =>
                   Calculations.Row.social_security_income r
                   == if (Calculations.retire_age config <=? Calculations.Row.age r)%Z
                         && (62 <=? Calculations.Row.age r)%Z
                      then 41000 * 1.025 ^ (Calculations.Row.age r - 62) else 0)
                rows).
Proof.
  assert (Hlocals : forall (b1 b2 : Q) (age : Z),
             Calculations.Locals.social_security_income
               (Calculations.year_locals config b1 b2 age)
             == if (Calculations.retire_age config <=? age)%Z && (62 <=? age)%Z
                then 41000 * 1.025 ^ (age - 62) else 0).
  { intros b1 b2 age. rewrite year_locals_social_security_income.
    destruct ((Calculations.retire_age config <=? age)%Z && (62 <=? age)%Z);
      [| reflexivity].
    assert (Hbase : 1 + Calculations.SOCIAL_SECURITY_COLA == 1.025) by reflexivity.
    rewrite Hbase. unfold Calculations.SOCIAL_SECURITY_MAX_AGE_62.
    apply Qmult_comp; reflexivity. }
  split; [exact Hlocals |].
  intros rows Hrun. unfold Calculations.run_projection in Hrun.
  eapply (projection_loop_invariant config (fun _ _ => True));
    [| exact I | constructor | exact Hrun].
  intros b1 b2 age _ l. split; [exact I |].
  intros tr. cbn. apply Hlocals.
Qed.

Lemma social_security_income_formula_witness :
  Forall (fun r =>
            Calculations.Row.social_security_income r
            == if (Calculations.retire_age Inputs.saving <=? Calculations.Row.age r)%Z
                  && (62 <=? Calculations.Row.age r)%Z
               then 41000 * 1.025 ^ (Calculations.Row.age r - 62) else 0)
         Inputs.saving_rows.
Proof.
  apply (proj2 (social_security_income_formula Inputs.saving) Inputs.saving_rows).
  vm_compute. reflexivity.
Defined.

(** * Further properties *)

(** ** The bracket loop, bracket by bracket *)

Lemma fold_bracket_steps_tax_from (t : Q) (brackets : list Taxes.OrdinaryBracket) :
  forall (suf pre : list Taxes.OrdinaryBracket) (tax : Q),
    brackets = pre ++ suf ->
    fold_left (Taxes.bracket_step t brackets)
              (combine (seq (List.length pre) (List.length suf)) suf) tax
    == tax + Bands.tax_from t suf.
Proof.
  induction suf as [| [a r] rest IH]; intros pre tax Hsplit.
  - simpl. ring.
  - cbn [List.length seq combine fold_left Bands.tax_from].
    specialize (IH (pre ++ [(a, r)])
                   (Taxes.bracket_step t brackets tax (List.length pre, (a, r)))).
    rewrite length_app in IH. cbn [List.length] in IH. rewrite Nat.add_1_r in IH.
    etransitivity; [apply IH; rewrite <- app_assoc; exact Hsplit |].
    rewrite bracket_step_adds.
    assert (Hamount :
              Taxes.amount_in_bracket t brackets (List.length pre) a
              = match rest with
                | [] => Py.max 0.0 (t - a)
                | (a', _) :: _ => Py.max 0.0 (Py.min t a' - a)
                end).
    { unfold Taxes.amount_in_bracket. rewrite Hsplit, length_app.
      destruct rest as [| [a' r'] rest'].
      - cbn [List.length].
        replace (List.length pre + 1 <? List.length pre + 1)%nat with false
          by (symmetry; apply Nat.ltb_ge; lia).
        reflexivity.
      - cbn [List.length].
        replace (List.length pre + 1 <? List.length pre + S (S (List.length rest')))%nat
          with true by (symmetry; apply Nat.ltb_lt; lia).
        rewrite app_nth2 by lia.
        replace (List.length pre + 1 - List.length pre)%nat with 1%nat by lia.
        reflexivity. }
    rewrite Hamount. ring.
Qed.

Lemma apply_ordinary_brackets_tax_from (t : Q) (brackets : list Taxes.OrdinaryBracket) :
  0 < t ->
  Taxes._apply_ordinary_brackets t brackets == Bands.tax_from t brackets.
Proof.
  intros Ht. unfold Taxes._apply_ordinary_brackets.
  replace (Py.leb t 0) with false by (symmetry; now apply leb_false).
  unfold Py.enumerate.
  rewrite (fold_bracket_steps_tax_from t brackets brackets [] 0.0 eq_refl). lra.
Qed.

(** Two adjacent pieces of income: what lies between [a] and [a'] and what
    lies above [a'] make what lies above [a]. *)
Lemma band_split (t a a' : Q) :
  a <= a' ->
  Py.max 0.0 (Py.min t a' - a) + Py.max 0.0 (t - a') == Py.max 0.0 (t - a).
Proof. intros H. py_cases; lra. Qed.

Lemma band_mono (t1 t2 a a' : Q) :
  t1 <= t2 ->
  Py.max 0.0 (Py.min t1 a' - a) <= Py.max 0.0 (Py.min t2 a' - a).
Proof. intros H. py_cases; lra. Qed.

Lemma above_mono (t1 t2 a : Q) :
  t1 <= t2 -> Py.max 0.0 (t1 - a) <= Py.max 0.0 (t2 - a).
Proof. intros H. py_cases; lra. Qed.

Lemma above_antitone (t a a' : Q) :
  a <= a' -> Py.max 0.0 (t - a') <= Py.max 0.0 (t - a).
Proof. intros H. py_cases; lra. Qed.

Lemma above_nonneg (t a : Q) : 0 <= Py.max 0.0 (t - a).
Proof. py_cases; lra. Qed.

(** Between two incomes the tax of an ascending table grows by at least
    the lowest and at most the highest rate of the table, per unit of
    income above its first threshold. *)
Lemma tax_from_increment (lo hi t1 t2 : Q) :
  t1 <= t2 ->
  forall (rest : list Taxes.OrdinaryBracket) (a r : Q),
    Bands.ascending ((a, r) :: rest) ->
    Forall (fun b => lo <= snd b /\ snd b <= hi) ((a, r) :: rest) ->
    lo * (Py.max 0.0 (t2 - a) - Py.max 0.0 (t1 - a))
    <= Bands.tax_from t2 ((a, r) :: rest) - Bands.tax_from t1 ((a, r) :: rest)
    /\ Bands.tax_from t2 ((a, r) :: rest) - Bands.tax_from t1 ((a, r) :: rest)
       <= hi * (Py.max 0.0 (t2 - a) - Py.max 0.0 (t1 - a)).
Proof.
  intros Ht. induction rest as [| [a' r'] rest IH]; intros a r Hasc Hrates.
  - inversion Hrates as [| ? ? [Hlo Hhi] _]; subst. simpl in Hlo, Hhi.
    cbn [Bands.tax_from].
    pose proof (above_mono t1 t2 a Ht).
    split; nra.
  - inversion Hrates as [| ? ? [Hlo Hhi] Hrest]; subst. simpl in Hlo, Hhi.
    destruct Hasc as [Haa' Hasc].
    specialize (IH a' r' Hasc Hrest).
    change (Bands.tax_from t2 ((a, r) :: (a', r') :: rest))
      with (Py.max 0.0 (Py.min t2 a' - a) * r + Bands.tax_from t2 ((a', r') :: rest)).
    change (Bands.tax_from t1 ((a, r) :: (a', r') :: rest))
      with (Py.max 0.0 (Py.min t1 a' - a) * r + Bands.tax_from t1 ((a', r') :: rest)).
    pose proof (band_split t1 a a' Haa') as Hs1.
    pose proof (band_split t2 a a' Haa') as Hs2.
    pose proof (band_mono t1 t2 a a' Ht) as Hb.
    pose proof (above_mono t1 t2 a' Ht) as Hg.
    revert IH Hs1 Hs2 Hb Hg.
    generalize (Bands.tax_from t2 ((a', r') :: rest))
               (Bands.tax_from t1 ((a', r') :: rest))
               (Py.max 0.0 (Py.min t2 a' - a)) (Py.max 0.0 (Py.min t1 a' - a))
               (Py.max 0.0 (t2 - a')) (Py.max 0.0 (t1 - a'))
               (Py.max 0.0 (t2 - a)) (Py.max 0.0 (t1 - a)).
    intros T2 T1 B2 B1 G2' G1' G2 G1 [IHlo IHhi] Hs1 Hs2 Hb Hg.
    split; nra.
Qed.

(** With the rates of a narrower table and thresholds at least as high, a
    progressive table taxes no more. *)
Lemma tax_from_wider (t : Q) :
  forall (rest_n rest_w : list Taxes.OrdinaryBracket) (a_n a_w r rho : Q),
    Bands.wider rest_n rest_w ->
    a_n <= a_w ->
    Bands.progressive ((a_n, r) :: rest_n) ->
    Bands.progressive ((a_w, r) :: rest_w) ->
    0 <= rho -> rho <= r ->
    Bands.tax_from t ((a_w, r) :: rest_w) - rho * Py.max 0.0 (t - a_w)
    <= Bands.tax_from t ((a_n, r) :: rest_n) - rho * Py.max 0.0 (t - a_n).
Proof.
  induction rest_n as [| [a_n' r_n'] rest_n IH];
    intros rest_w a_n a_w r rho Hw Ha Hpn Hpw Hrho0 Hrho.
  - inversion Hw; subst. cbn [Bands.tax_from].
    pose proof (above_antitone t a_n a_w Ha).
    pose proof (above_nonneg t a_w). nra.
  - inversion Hw as [| ? [a_w' r_w'] ? rest_w' [Hr Ha'] Hw']; subst.
    simpl in Hr, Ha'. subst r_w'.
    destruct Hpn as [[Hna Hnr] Hpn]. destruct Hpw as [[Hwa Hwr] Hpw].
    assert (Hr0 : 0 <= r) by lra.
    specialize (IH rest_w' a_n' a_w' r_n' r Hw' Ha' Hpn Hpw Hr0 Hnr).
    change (Bands.tax_from t ((a_w, r) :: (a_w', r_n') :: rest_w'))
      with (Py.max 0.0 (Py.min t a_w' - a_w) * r
            + Bands.tax_from t ((a_w', r_n') :: rest_w')).
    change (Bands.tax_from t ((a_n, r) :: (a_n', r_n') :: rest_n))
      with (Py.max 0.0 (Py.min t a_n' - a_n) * r
            + Bands.tax_from t ((a_n', r_n') :: rest_n)).
    pose proof (band_split t a_w a_w' Hwa) as Hsw.
    pose proof (band_split t a_n a_n' Hna) as Hsn.
    pose proof (above_antitone t a_n a_w Ha) as Hg.
    pose proof (above_nonneg t a_w) as Hg0.
    revert IH Hsw Hsn Hg Hg0.
    generalize (Bands.tax_from t ((a_w', r_n') :: rest_w'))
               (Bands.tax_from t ((a_n', r_n') :: rest_n))
               (Py.max 0.0 (Py.min t a_w' - a_w)) (Py.max 0.0 (Py.min t a_n' - a_n))
               (Py.max 0.0 (t - a_w')) (Py.max 0.0 (t - a_n'))
               (Py.max 0.0 (t - a_w)) (Py.max 0.0 (t - a_n)).
    intros Tw Tn Bw Bn Gw' Gn' Gw Gn IH Hsw Hsn Hg Hg0.
    nra.
Qed.

(** ** The two federal tables *)

Lemma progressive_ascending (suf : list Taxes.OrdinaryBracket) :
  Bands.progressive suf -> Bands.ascending suf.
Proof.
  induction suf as [| [a r] rest IH]; [trivial |].
  intros [Hhead Hrest]. split; [| exact (IH Hrest)].
  destruct rest as [| [a' r'] rest']; [trivial | tauto].
Qed.

Lemma single_progressive : Bands.progressive Taxes.FEDERAL_BRACKETS_SINGLE.
Proof. cbn. repeat split; lra. Qed.

Lemma married_progressive : Bands.progressive Taxes.FEDERAL_BRACKETS_MARRIED.
Proof. cbn. repeat split; lra. Qed.

Lemma single_rate_range :
  Forall (fun b => 0.10 <= snd b /\ snd b <= 0.37) Taxes.FEDERAL_BRACKETS_SINGLE.
Proof. unfold Taxes.FEDERAL_BRACKETS_SINGLE. repeat constructor; simpl; lra. Qed.

Lemma married_rate_range :
  Forall (fun b => 0.10 <= snd b /\ snd b <= 0.37) Taxes.FEDERAL_BRACKETS_MARRIED.
Proof. unfold Taxes.FEDERAL_BRACKETS_MARRIED. repeat constructor; simpl; lra. Qed.

Lemma married_wider :
  Bands.wider (tl Taxes.FEDERAL_BRACKETS_SINGLE) (tl Taxes.FEDERAL_BRACKETS_MARRIED).
Proof. cbn. repeat constructor; simpl; lra. Qed.

Lemma tax_from_nonpos (t : Q) (suf : list Taxes.OrdinaryBracket) :
  Forall (fun b => 0 <= fst b) suf ->
  t <= 0 ->
  Bands.tax_from t suf == 0.
Proof.
  intros Hth Ht. induction suf as [| [a r] rest IH]; [reflexivity |].
  inversion Hth as [| ? ? Ha Hrest]; subst. simpl in Ha.
  cbn [Bands.tax_from]. rewrite (IH Hrest).
  destruct rest as [| [a' r'] rest']; py_cases; nra.
Qed.

(** On the federal tables the loop and its early return compute the sum
    over the brackets at every income. *)
Lemma apply_tables_tax_from (t : Q) (fs : string) :
  Taxes._apply_ordinary_brackets t (Taxes._get_brackets fs)
  == Bands.tax_from t (Taxes._get_brackets fs).
Proof.
  destruct (Qlt_le_dec 0 t) as [Hpos | Hle].
  - now apply apply_ordinary_brackets_tax_from.
  - rewrite (tax_from_nonpos t _ (get_brackets_thresholds fs) Hle).
    unfold Taxes._apply_ordinary_brackets.
    replace (Py.leb t 0) with true by (symmetry; now apply leb_true).
    reflexivity.
Qed.

Lemma apply_tables_increment (fs : string) (t1 t2 : Q) :
  0 <= t1 -> t1 <= t2 ->
  0.10 * (t2 - t1)
  <= Taxes._apply_ordinary_brackets t2 (Taxes._get_brackets fs)
     - Taxes._apply_ordinary_brackets t1 (Taxes._get_brackets fs)
  /\ Taxes._apply_ordinary_brackets t2 (Taxes._get_brackets fs)
     - Taxes._apply_ordinary_brackets t1 (Taxes._get_brackets fs)
     <= 0.37 * (t2 - t1).
Proof.
  intros H0 Ht. rewrite !apply_tables_tax_from.
  assert (Hg : forall t, 0 <= t -> Py.max 0.0 (t - 0.0) == t)
    by (intros t Hpos; py_cases; lra).
  unfold Taxes._get_brackets. destruct (String.eqb fs "married").
  - pose proof (tax_from_increment 0.10 0.37 t1 t2 Ht _ _ _
                  (progressive_ascending _ married_progressive) married_rate_range) as H.
    fold Taxes.FEDERAL_BRACKETS_MARRIED in H.
    rewrite (Hg t1 H0), (Hg t2) in H by lra. exact H.
  - pose proof (tax_from_increment 0.10 0.37 t1 t2 Ht _ _ _
                  (progressive_ascending _ single_progressive) single_rate_range) as H.
    fold Taxes.FEDERAL_BRACKETS_SINGLE in H.
    rewrite (Hg t1 H0), (Hg t2) in H by lra. exact H.
Qed.

Lemma apply_tables_zero (fs : string) :
  Taxes._apply_ordinary_brackets 0 (Taxes._get_brackets fs) == 0.
Proof. unfold Taxes._apply_ordinary_brackets. reflexivity. Qed.

(** The married table never taxes an income more than the single one. *)
Lemma married_table_below_single (t : Q) :
  Taxes._apply_ordinary_brackets t Taxes.FEDERAL_BRACKETS_MARRIED
  <= Taxes._apply_ordinary_brackets t Taxes.FEDERAL_BRACKETS_SINGLE.
Proof.
  pose proof (apply_tables_tax_from t "married") as Hm.
  pose proof (apply_tables_tax_from t "single") as Hs.
  change (Taxes._get_brackets "married") with Taxes.FEDERAL_BRACKETS_MARRIED in Hm.
  change (Taxes._get_brackets "single") with Taxes.FEDERAL_BRACKETS_SINGLE in Hs.
  rewrite Hm, Hs.
  pose proof (tax_from_wider t _ _ 0.0 0.0 0.10 0 married_wider) as H.
  cbn [tl Taxes.FEDERAL_BRACKETS_SINGLE Taxes.FEDERAL_BRACKETS_MARRIED] in H.
  fold Taxes.FEDERAL_BRACKETS_SINGLE in H.
  specialize (H ltac:(lra) single_progressive married_progressive ltac:(lra) ltac:(lra)).
  fold Taxes.FEDERAL_BRACKETS_MARRIED in H.
  lra.
Qed.

(** ** The tax estimator: rates *)

(** X1.  On either federal table, between two taxable incomes
    [0 <= t1 <= t2] the bracket tax grows by at least 10% and at most 37% of
    the difference; in particular the tax on [t2] lies between 10% and 37%
    of [t2]. *)
Theorem bracket_tax_marginal_rate (filing_status : string) (t1 t2 : Q) :
  0 <= t1 -> t1 <= t2 ->
  let tax t := Taxes._apply_ordinary_brackets t (Taxes._get_brackets filing_status) in
  (0.10 * (t2 - t1) <= tax t2 - tax t1 /\ tax t2 - tax t1 <= 0.37 * (t2 - t1))
  /\ (0.10 * t2 <= tax t2 /\ tax t2 <= 0.37 * t2).
Proof.
  intros H0 Ht tax. subst tax. split.
  - now apply apply_tables_increment.
  - destruct (apply_tables_increment filing_status 0 t2 ltac:(lra) ltac:(lra))
      as [Hlo Hhi].
    rewrite apply_tables_zero in Hlo, Hhi. split; lra.
Qed.

Lemma bracket_tax_marginal_rate_witness :
  let tax t := Taxes._apply_ordinary_brackets t (Taxes._get_brackets "single") in
  0.10 * (50000 - 40000) <= tax 50000 - tax 40000
  /\ tax 50000 - tax 40000 <= 0.37 * (50000 - 40000).
Proof.
  apply (bracket_tax_marginal_rate "single" 40000 50000).
  - vm_compute. discriminate.
  - vm_compute. discriminate.
Defined.

Lemma taxable_ordinary_nonneg (ti : Taxes.TaxInput) : 0 <= Taxes.taxable_ordinary ti.
Proof. unfold Taxes.taxable_ordinary. py_cases; lra. Qed.

Lemma federal_ordinary_tax_bounds (ti : Taxes.TaxInput) :
  0.10 * Taxes.taxable_ordinary ti <= Taxes.federal_ordinary_tax ti
  /\ Taxes.federal_ordinary_tax ti <= 0.37 * Taxes.taxable_ordinary ti.
Proof.
  pose proof (taxable_ordinary_nonneg ti) as Hnn.
  destruct (apply_tables_increment (Taxes.effective_filing_status ti) 0
              (Taxes.taxable_ordinary ti) ltac:(lra) Hnn) as [Hlo Hhi].
  rewrite apply_tables_zero in Hlo, Hhi.
  unfold Taxes.federal_ordinary_tax. split; lra.
Qed.

(** X2.  [compute_taxes] never returns a negative amount: the taxed
    ordinary income, the federal, state and total tax and the effective
    rate are all non-negative, whatever the signs of the inputs, and the
    total is the sum of the federal and the state tax.  In exact
    arithmetic the effective rate times a positive total income is the
    total tax. *)
Theorem compute_taxes_nonnegative (ti : Taxes.TaxInput) :
  let r := Taxes.compute_taxes ti in
  0 <= Taxes.ordinary_income_taxed r
  /\ 0 <= Taxes.federal_tax r
  /\ 0 <= Taxes.state_tax r
  /\ 0 <= Taxes.total_tax r
  /\ 0 <= Taxes.effective_rate r
  /\ Taxes.total_tax r == Taxes.federal_tax r + Taxes.state_tax r
  /\ (0 < Taxes.ordinary_income ti + Taxes.capital_gains_income ti ->
      Taxes.effective_rate r
      * (Taxes.ordinary_income ti + Taxes.capital_gains_income ti)
      == Taxes.total_tax r).
Proof.
  intros r. subst r.
  pose proof (federal_ordinary_tax_nonneg ti) as Hfo.
  pose proof (federal_capital_tax_nonneg ti) as Hfc.
  assert (Hst : 0 <= Taxes.state_tax (Taxes.compute_taxes ti))
    by (rewrite state_tax_value; py_cases; nra).
  assert (Hfed : Taxes.federal_tax (Taxes.compute_taxes ti)
                 = Taxes.federal_ordinary_tax ti + Taxes.federal_capital_tax ti)
    by reflexivity.
  assert (Htot : Taxes.total_tax (Taxes.compute_taxes ti)
                 = Taxes.federal_tax (Taxes.compute_taxes ti)
                   + Taxes.state_tax (Taxes.compute_taxes ti))
    by reflexivity.
  assert (Htot0 : 0 <= Taxes.total_tax (Taxes.compute_taxes ti))
    by (rewrite Htot, Hfed; lra).
  split; [apply taxable_ordinary_nonneg |].
  split; [rewrite Hfed; lra |].
  split; [exact Hst |].
  split; [exact Htot0 |].
  assert (Heff : Taxes.effective_rate (Taxes.compute_taxes ti)
                 = if Py.ltb 0 (Taxes.total_income ti)
                   then Taxes.total_tax (Taxes.compute_taxes ti) / Taxes.total_income ti
                   else 0.0)
    by reflexivity.
  split; [| split; [rewrite Htot; reflexivity |]].
  - rewrite Heff. destruct (Py.ltb 0 (Taxes.total_income ti)) eqn:E; [| lra].
    apply ltb_true in E. apply Qle_shift_div_l; [exact E | lra].
  - intros Hpos. rewrite Heff. unfold Taxes.total_income.
    replace (Py.ltb 0 (Taxes.ordinary_income ti + Taxes.capital_gains_income ti))
      with true by (symmetry; now apply ltb_true).
    field. lra.
Qed.

Lemma compute_taxes_nonnegative_witness :
  Taxes.effective_rate (Taxes.compute_taxes MoreInputs.single_50000)
  * (Taxes.ordinary_income MoreInputs.single_50000
     + Taxes.capital_gains_income MoreInputs.single_50000)
  == Taxes.total_tax (Taxes.compute_taxes MoreInputs.single_50000).
Proof.
  apply (compute_taxes_nonnegative MoreInputs.single_50000).
  vm_compute. reflexivity.
Defined.

(** On binary64 numbers the product of the effective rate and the total
    income is rounded: for a single filer with 22500 of ordinary income the
    total tax is 790 and the product is 790.0000000000001. *)
Lemma effective_rate_product_rounds :
  let r := Binary64.compute_taxes Binary64Year.single_22500 in
  Binary64.total_tax r = 790%float
  /\ (Binary64.effective_rate r * 22500)%float = 790.0000000000001%float
  /\ PrimFloat.ltb (Binary64.total_tax r) (Binary64.effective_rate r * 22500) = true.
Proof. vm_compute. repeat split. Qed.

(** X3.  With non-negative ordinary income and capital gains and a
    positive total income, the total tax is at most 37% plus the state
    rate (floored at zero) of the total income, and so is the effective
    rate. *)
Theorem effective_rate_bound (ti : Taxes.TaxInput) :
  0 <= Taxes.ordinary_income ti ->
  0 <= Taxes.capital_gains_income ti ->
  0 < Taxes.ordinary_income ti + Taxes.capital_gains_income ti ->
  let r := Taxes.compute_taxes ti in
  Taxes.total_tax r
  <= (0.37 + Qmax 0 (Taxes.state_rate ti))
     * (Taxes.ordinary_income ti + Taxes.capital_gains_income ti)
  /\ Taxes.effective_rate r <= 0.37 + Qmax 0 (Taxes.state_rate ti).
Proof.
  intros Hoi Hcg Hpos r. subst r.
  assert (Htax : Taxes.total_tax (Taxes.compute_taxes ti)
                 <= (0.37 + Qmax 0 (Taxes.state_rate ti))
                    * (Taxes.ordinary_income ti + Taxes.capital_gains_income ti)).
  { rewrite total_tax_value, <- max0_is_Qmax.
    destruct (federal_ordinary_tax_bounds ti) as [_ Hhi].
    assert (Htaxable : Taxes.taxable_ordinary ti <= Taxes.ordinary_income ti).
    { unfold Taxes.taxable_ordinary. rewrite std_deduction_cases.
      destruct (String.eqb _ "married"); py_cases; lra. }
    assert (Hcap : Taxes.federal_capital_tax ti <= 0.37 * Taxes.capital_gains_income ti).
    { unfold Taxes.federal_capital_tax, Taxes.capital_gains_rate. py_cases; lra. }
    unfold Taxes.total_income.
    pose proof (above_nonneg (Taxes.state_rate ti) 0) as Hs.
    revert Hs. py_cases; intros; nra. }
  split; [exact Htax |].
  cbn [Taxes.compute_taxes Taxes.effective_rate]. unfold Taxes.total_income.
  replace (Py.ltb 0 (Taxes.ordinary_income ti + Taxes.capital_gains_income ti))
    with true by (symmetry; now apply ltb_true).
  apply Qle_shift_div_r; [exact Hpos |]. exact Htax.
Qed.

Lemma effective_rate_bound_witness :
  Taxes.effective_rate (Taxes.compute_taxes MoreInputs.single_50000)
  <= 0.37 + Qmax 0 (Taxes.state_rate MoreInputs.single_50000).
Proof.
  apply (effective_rate_bound MoreInputs.single_50000).
  - vm_compute. discriminate.
  - vm_compute. discriminate.
  - vm_compute. reflexivity.
Defined.

(** X4.  In exact arithmetic: more ordinary income, the rest unchanged,
    raises the total tax by at most 37% plus the state rate (floored at
    zero) of the increase; so with a state rate of at most 63% the income
    left after tax never falls when the ordinary income rises. *)
Theorem compute_taxes_marginal_rate (ti1 ti2 : Taxes.TaxInput) :
  Taxes.filing_status ti1 = Taxes.filing_status ti2 ->
  Taxes.state_rate ti1 == Taxes.state_rate ti2 ->
  Taxes.capital_gains_income ti1 == Taxes.capital_gains_income ti2 ->
  Taxes.ordinary_income ti1 <= Taxes.ordinary_income ti2 ->
  let tax1 := Taxes.total_tax (Taxes.compute_taxes ti1) in
  let tax2 := Taxes.total_tax (Taxes.compute_taxes ti2) in
  tax2 - tax1
  <= (0.37 + Qmax 0 (Taxes.state_rate ti1))
     * (Taxes.ordinary_income ti2 - Taxes.ordinary_income ti1)
  /\ (Taxes.state_rate ti1 <= 0.63 ->
      Taxes.ordinary_income ti1 - tax1 <= Taxes.ordinary_income ti2 - tax2).
Proof.
  intros Hfs Hsr Hcg Hoi tax1 tax2. subst tax1 tax2.
  assert (Hefs : Taxes.effective_filing_status ti1 = Taxes.effective_filing_status ti2)
    by (unfold Taxes.effective_filing_status; rewrite Hfs; reflexivity).
  assert (Hded : Taxes.std_deduction ti1 = Taxes.std_deduction ti2)
    by (unfold Taxes.std_deduction; rewrite Hefs; reflexivity).
  assert (Ht : Taxes.taxable_ordinary ti1 <= Taxes.taxable_ordinary ti2
               /\ Taxes.taxable_ordinary ti2 - Taxes.taxable_ordinary ti1
                  <= Taxes.ordinary_income ti2 - Taxes.ordinary_income ti1).
  { unfold Taxes.taxable_ordinary. rewrite Hded. py_cases; split; lra. }
  destruct Ht as [Ht1 Ht2].
  destruct (apply_tables_increment (Taxes.effective_filing_status ti2)
              (Taxes.taxable_ordinary ti1) (Taxes.taxable_ordinary ti2)
              (taxable_ordinary_nonneg ti1) Ht1) as [_ Hord].
  assert (Hcap : Taxes.federal_capital_tax ti1 == Taxes.federal_capital_tax ti2).
  { unfold Taxes.federal_capital_tax, Taxes.capital_gains_rate. py_cases; lra. }
  assert (Hbound :
            Taxes.total_tax (Taxes.compute_taxes ti2)
            - Taxes.total_tax (Taxes.compute_taxes ti1)
            <= (0.37 + Py.max 0.0 (Taxes.state_rate ti1))
               * (Taxes.ordinary_income ti2 - Taxes.ordinary_income ti1)).
  { assert (HFO : Taxes.federal_ordinary_tax ti2 - Taxes.federal_ordinary_tax ti1
                  <= 0.37 * (Taxes.ordinary_income ti2 - Taxes.ordinary_income ti1)).
    { unfold Taxes.federal_ordinary_tax. rewrite Hefs. lra. }
    assert (HST : Py.max 0.0 (Taxes.total_income ti2) * Py.max 0.0 (Taxes.state_rate ti2)
                  - Py.max 0.0 (Taxes.total_income ti1) * Py.max 0.0 (Taxes.state_rate ti1)
                  <= Py.max 0.0 (Taxes.state_rate ti1)
                     * (Taxes.ordinary_income ti2 - Taxes.ordinary_income ti1)).
    { unfold Taxes.total_income. py_cases; nra. }
    rewrite !total_tax_value.
    revert HFO HST Hcap.
    generalize (Py.max 0.0 (Taxes.total_income ti2) * Py.max 0.0 (Taxes.state_rate ti2))
               (Py.max 0.0 (Taxes.total_income ti1) * Py.max 0.0 (Taxes.state_rate ti1)).
    intros S2 S1 HFO HST Hcap. nra. }
  split.
  - rewrite <- max0_is_Qmax. exact Hbound.
  - intros Hrate.
    assert (Hm : Py.max 0.0 (Taxes.state_rate ti1) <= 0.63) by (py_cases; lra).
    assert (Hm0 : 0 <= Py.max 0.0 (Taxes.state_rate ti1)) by (py_cases; lra).
    nra.
Qed.

Lemma compute_taxes_marginal_rate_witness :
  Taxes.ordinary_income MoreInputs.single_50000
  - Taxes.total_tax (Taxes.compute_taxes MoreInputs.single_50000)
  <= Taxes.ordinary_income MoreInputs.single_55000
     - Taxes.total_tax (Taxes.compute_taxes MoreInputs.single_55000).
Proof.
  apply (compute_taxes_marginal_rate MoreInputs.single_50000 MoreInputs.single_55000).
  - reflexivity.
  - reflexivity.
  - reflexivity.
  - vm_compute. discriminate.
  - vm_compute. discriminate.
Defined.

(** ** The tax estimator: filing status *)

(** X5.  A filing status other than "married" is taxed as "single": the
    whole result is the one of the same amounts filed as "single". *)
Theorem unknown_filing_status_is_single (ti : Taxes.TaxInput) :
  Taxes.filing_status ti <> "married"%string ->
  Taxes.compute_taxes ti
  = Taxes.compute_taxes
      (Taxes.mkTaxInput "single" (Taxes.state_rate ti) (Taxes.ordinary_income ti)
                        (Taxes.capital_gains_income ti)).
Proof.
  intros Hfs.
  destruct (effective_filing_status_cases ti) as [[E _] | [_ E]]; [contradiction |].
  unfold Taxes.compute_taxes, Taxes.federal_ordinary_tax, Taxes.taxable_ordinary,
    Taxes.std_deduction, Taxes.federal_capital_tax, Taxes.total_income.
  rewrite E. reflexivity.
Qed.

Lemma unknown_filing_status_is_single_witness :
  Taxes.compute_taxes MoreInputs.head_of_household
  = Taxes.compute_taxes MoreInputs.single_50000.
Proof.
  apply (unknown_filing_status_is_single MoreInputs.head_of_household).
  vm_compute. discriminate.
Defined.

(** X6.  Filed as "married", the same amounts never owe more than under
    any other filing status: neither in federal tax nor in total, with the
    same state tax. *)
Theorem married_never_owes_more (filing_status : string)
        (state_rate ordinary_income capital_gains_income : Q) :
  let married :=
    Taxes.compute_taxes
      (Taxes.mkTaxInput "married" state_rate ordinary_income capital_gains_income) in
  let other :=
    Taxes.compute_taxes
      (Taxes.mkTaxInput filing_status state_rate ordinary_income capital_gains_income) in
  Taxes.ordinary_income_taxed married <= Taxes.ordinary_income_taxed other
  /\ Taxes.federal_tax married <= Taxes.federal_tax other
  /\ Taxes.state_tax married = Taxes.state_tax other
  /\ Taxes.total_tax married <= Taxes.total_tax other.
Proof.
  intros married other. subst married other.
  set (tm := Taxes.mkTaxInput "married" state_rate ordinary_income capital_gains_income).
  set (to := Taxes.mkTaxInput filing_status state_rate ordinary_income
                              capital_gains_income).
  assert (Htaxable : Taxes.taxable_ordinary tm <= Taxes.taxable_ordinary to).
  { unfold Taxes.taxable_ordinary. rewrite !std_deduction_cases. cbn.
    destruct (String.eqb filing_status "married"); py_cases; lra. }
  assert (Hord : Taxes.federal_ordinary_tax tm <= Taxes.federal_ordinary_tax to).
  { unfold Taxes.federal_ordinary_tax.
    change (Taxes._get_brackets (Taxes.effective_filing_status tm))
      with Taxes.FEDERAL_BRACKETS_MARRIED.
    eapply Qle_trans;
      [apply (apply_ordinary_brackets_mono _ _ _ married_rates Htaxable) |].
    unfold Taxes._get_brackets.
    destruct (String.eqb (Taxes.effective_filing_status to) "married");
      [lra | apply married_table_below_single]. }
  assert (Hcap : Taxes.federal_capital_tax tm = Taxes.federal_capital_tax to)
    by reflexivity.
  split; [exact Htaxable |].
  split; [cbn [Taxes.compute_taxes Taxes.federal_tax]; rewrite Hcap; lra |].
  split; [reflexivity |].
  rewrite !total_tax_value, Hcap.
  change (Taxes.total_income tm) with (Taxes.total_income to).
  change (Taxes.state_rate tm) with (Taxes.state_rate to).
  lra.
Qed.

(** X7.  The total tax is monotone in each amount: with the same filing
    status, no less ordinary income, no less capital gains and no lower
    state rate, the total tax is no less. *)
Theorem compute_taxes_monotone_in_all (ti1 ti2 : Taxes.TaxInput) :
  Taxes.filing_status ti1 = Taxes.filing_status ti2 ->
  Taxes.ordinary_income ti1 <= Taxes.ordinary_income ti2 ->
  Taxes.capital_gains_income ti1 <= Taxes.capital_gains_income ti2 ->
  Taxes.state_rate ti1 <= Taxes.state_rate ti2 ->
  Taxes.federal_tax (Taxes.compute_taxes ti1) <= Taxes.federal_tax (Taxes.compute_taxes ti2)
  /\ Taxes.state_tax (Taxes.compute_taxes ti1) <= Taxes.state_tax (Taxes.compute_taxes ti2)
  /\ Taxes.total_tax (Taxes.compute_taxes ti1) <= Taxes.total_tax (Taxes.compute_taxes ti2).
Proof.
  intros Hfs Hoi Hcg Hsr.
  assert (Hefs : Taxes.effective_filing_status ti1 = Taxes.effective_filing_status ti2)
    by (unfold Taxes.effective_filing_status; rewrite Hfs; reflexivity).
  assert (Hded : Taxes.std_deduction ti1 = Taxes.std_deduction ti2)
    by (unfold Taxes.std_deduction; rewrite Hefs; reflexivity).
  assert (Hord : Taxes.federal_ordinary_tax ti1 <= Taxes.federal_ordinary_tax ti2).
  { unfold Taxes.federal_ordinary_tax. rewrite Hefs.
    apply apply_ordinary_brackets_mono; [apply get_brackets_rates |].
    unfold Taxes.taxable_ordinary. rewrite Hded. py_cases; lra. }
  assert (Hcap : Taxes.federal_capital_tax ti1 <= Taxes.federal_capital_tax ti2).
  { unfold Taxes.federal_capital_tax, Taxes.capital_gains_rate. py_cases; lra. }
  assert (Hst : Taxes.state_tax (Taxes.compute_taxes ti1)
                <= Taxes.state_tax (Taxes.compute_taxes ti2)).
  { rewrite !state_tax_value. unfold Taxes.total_income. py_cases; nra. }
  assert (Hfed : Taxes.federal_tax (Taxes.compute_taxes ti1)
                 <= Taxes.federal_tax (Taxes.compute_taxes ti2)).
  { cbn [Taxes.compute_taxes Taxes.federal_tax]. lra. }
  split; [exact Hfed |]. split; [exact Hst |].
  change (Taxes.total_tax (Taxes.compute_taxes ti1))
    with (Taxes.federal_tax (Taxes.compute_taxes ti1)
          + Taxes.state_tax (Taxes.compute_taxes ti1)).
  change (Taxes.total_tax (Taxes.compute_taxes ti2))
    with (Taxes.federal_tax (Taxes.compute_taxes ti2)
          + Taxes.state_tax (Taxes.compute_taxes ti2)).
  lra.
Qed.

Lemma compute_taxes_monotone_in_all_witness :
  Taxes.total_tax (Taxes.compute_taxes MoreInputs.single_50000)
  <= Taxes.total_tax (Taxes.compute_taxes MoreInputs.single_60000).
Proof.
  apply (compute_taxes_monotone_in_all MoreInputs.single_50000 MoreInputs.single_60000).
  - reflexivity.
  - vm_compute. discriminate.
  - vm_compute. discriminate.
  - vm_compute. discriminate.
Defined.

(** ** Capital gains of a brokerage withdrawal *)

(** X8.  [estimate_brokerage_gains] is the withdrawal floored at zero
    times the gain fraction clamped to [0, 1]: it is never negative and
    never more than the withdrawal floored at zero, and with the default
    fraction it is half of a positive withdrawal. *)
Theorem estimate_brokerage_gains_clamped (withdrawal gain_fraction : Q) :
  Taxes.estimate_brokerage_gains_with withdrawal gain_fraction
  == Qmax 0 withdrawal * Qmin 1 (Qmax 0 gain_fraction)
  /\ 0 <= Taxes.estimate_brokerage_gains_with withdrawal gain_fraction
  /\ Taxes.estimate_brokerage_gains_with withdrawal gain_fraction <= Qmax 0 withdrawal
  /\ Taxes.estimate_brokerage_gains withdrawal == Qmax 0 withdrawal / 2.
Proof.
  assert (Hform : forall g,
             Taxes.estimate_brokerage_gains_with withdrawal g
             == Py.max 0.0 withdrawal * Py.min 1.0 (Py.max 0.0 g)).
  { intros g. unfold Taxes.estimate_brokerage_gains_with. py_cases; nra. }
  assert (Hm : Py.max 0.0 withdrawal == Qmax 0 withdrawal) by apply max0_is_Qmax.
  assert (Hc : forall g, Py.min 1.0 (Py.max 0.0 g) == Qmin 1 (Qmax 0 g)).
  { intros g. rewrite min_is_Qmin. apply Q.min_compat; [reflexivity |].
    apply max0_is_Qmax. }
  assert (Hrange : forall g, 0 <= Py.min 1.0 (Py.max 0.0 g) <= 1)
    by (intros g; py_cases; lra).
  pose proof (above_nonneg withdrawal 0) as Hw0.
  assert (Hw : Py.max 0.0 (withdrawal - 0) == Py.max 0.0 withdrawal)
    by (py_cases; lra).
  split; [rewrite Hform, Hm, Hc; reflexivity |].
  split; [rewrite Hform; specialize (Hrange gain_fraction); nra |].
  split; [rewrite Hform, <- Hm; specialize (Hrange gain_fraction); nra |].
  unfold Taxes.estimate_brokerage_gains. rewrite Hform, <- Hm.
  assert (Hhalf : Py.min 1.0 (Py.max 0.0 0.5) == 1 / 2) by reflexivity.
  rewrite Hhalf. field.
Qed.

(** ** Runs that return *)

Lemma range_nil (lo hi : Z) : (hi <= lo)%Z -> Py.range lo hi = [].
Proof.
  intros H. unfold Py.range. replace (Z.to_nat (hi - lo)) with 0%nat by lia.
  reflexivity.
Qed.

Lemma range_cons (lo hi : Z) :
  (lo < hi)%Z -> Py.range lo hi = lo :: Py.range (lo + 1) hi.
Proof.
  intros H. unfold Py.range.
  replace (Z.to_nat (hi - lo)) with (S (Z.to_nat (hi - (lo + 1)))) by lia.
  cbn [seq map]. f_equal; [lia |].
  rewrite <- seq_shift, map_map. apply map_ext. intros i. lia.
Qed.

Lemma power_succ (q : Q) (n : Z) : (0 <= n)%Z -> q ^ (n + 1) == q ^ n * q.
Proof. intros H. rewrite Qpower_plus' by lia. reflexivity. Qed.

Section RangeLoop.

Variable config : Calculations.ProjectionConfig.

(** An invariant [I] of the age and the balances and a property [R] of the
    rows: when every working year keeps [I] and yields a row with [R],
    every row of a loop over consecutive ages that returns has [R]. *)
Lemma projection_loop_range_invariant
      (I : Z -> Q -> Q -> Prop) (R : Calculations.Row.t -> Prop) :
  (forall (age : Z) (b1 b2 : Q),
      I age b1 b2 ->
      (age < Calculations.retire_age config)%Z ->
      let l := Calculations.year_locals config b1 b2 age in
      I (age + 1)%Z (Calculations.Locals.balance_401k l)
        (Calculations.Locals.balance_brokerage l)
      /\ R (Calculations.make_row age l None)) ->
  forall (n : nat) (lo : Z) (b1 b2 : Q) (rows out : list Calculations.Row.t),
    I lo b1 b2 -> Forall R rows ->
    Calculations.projection_loop config (Py.range lo (lo + Z.of_nat n)) b1 b2 rows
    = Py.Return out ->
    Forall R out.
Proof.
  intros Hstep. induction n as [| n IH]; intros lo b1 b2 rows out HI HR Hrun.
  - rewrite range_nil in Hrun by lia. cbn in Hrun. inversion Hrun. subst. exact HR.
  - rewrite range_cons in Hrun by lia. cbn [Calculations.projection_loop] in Hrun.
    destruct (Z.lt_ge_cases lo (Calculations.retire_age config)) as [Hw | Hr].
    + rewrite (year_body_working config b1 b2 lo Hw) in Hrun. cbn [Py.bind] in Hrun.
      destruct (Hstep lo b1 b2 HI Hw) as [HI' HR'].
      replace (lo + Z.of_nat (S n))%Z with (lo + 1 + Z.of_nat n)%Z in Hrun by lia.
      eapply IH; [exact HI' | | exact Hrun].
      apply Forall_app. split; [exact HR | constructor; [exact HR' | constructor]].
    + rewrite (year_body_retired config b1 b2 lo Hr) in Hrun. discriminate.
Qed.

Lemma run_projection_range_invariant
      (I : Z -> Q -> Q -> Prop) (R : Calculations.Row.t -> Prop) :
  (forall (age : Z) (b1 b2 : Q),
      I age b1 b2 ->
      (age < Calculations.retire_age config)%Z ->
      let l := Calculations.year_locals config b1 b2 age in
      I (age + 1)%Z (Calculations.Locals.balance_401k l)
        (Calculations.Locals.balance_brokerage l)
      /\ R (Calculations.make_row age l None)) ->
  I (Calculations.current_age config) (Calculations.current_401k_balance config)
    (Calculations.current_brokerage_balance config) ->
  forall rows : list Calculations.Row.t,
    Calculations.run_projection config = Py.Return rows ->
    Forall R rows.
Proof.
  intros Hstep HI rows Hrun. unfold Calculations.run_projection in Hrun.
  unfold Calculations._year_sequence in Hrun.
  set (lo := Calculations.current_age config) in *.
  set (hi := (Calculations.end_age config + 1)%Z) in *.
  assert (Hrange : Py.range lo hi = Py.range lo (lo + Z.of_nat (Z.to_nat (hi - lo)))).
  { unfold Py.range. do 2 f_equal. lia. }
  rewrite Hrange in Hrun.
  eapply (projection_loop_range_invariant I R Hstep); [exact HI | constructor | exact Hrun].
Qed.

(** A run returns only when its age range holds no retirement year. *)
Lemma run_projection_returned (rows : list Calculations.Row.t) :
  Calculations.run_projection config = Py.Return rows ->
  (Calculations.end_age config < Calculations.current_age config)%Z
  \/ (Calculations.end_age config < Calculations.retire_age config)%Z.
Proof.
  intros Hrun.
  destruct (Z.lt_ge_cases (Calculations.end_age config) (Calculations.current_age config))
    as [H1 | H1]; [left; exact H1 |].
  destruct (Z.lt_ge_cases (Calculations.end_age config) (Calculations.retire_age config))
    as [H2 | H2]; [right; exact H2 |].
  rewrite (run_projection_raises config H1 H2) in Hrun. discriminate.
Qed.

Lemma run_projection_empty_range :
  (Calculations.end_age config < Calculations.current_age config)%Z ->
  Calculations.run_projection config = Py.Return [].
Proof.
  intros H. unfold Calculations.run_projection, Calculations._year_sequence.
  rewrite range_nil by lia. reflexivity.
Qed.

End RangeLoop.

(** X9.  [run_projection] returns exactly when the age range holds no
    retirement year, that is when [end_age < current_age] (an empty range,
    for which it returns no record) or [end_age < retire_age]; in every
    other case, [current_age <= end_age] and [retire_age <= end_age], it
    raises an exception instead of returning. *)
Theorem run_projection_returns_iff (config : Calculations.ProjectionConfig) :
  ((exists rows, Calculations.run_projection config = Py.Return rows)
   <-> (Calculations.end_age config < Calculations.current_age config)%Z
       \/ (Calculations.end_age config < Calculations.retire_age config)%Z)
  /\ ((exists e, Calculations.run_projection config = Py.Raise e)
      <-> (Calculations.current_age config <= Calculations.end_age config)%Z
          /\ (Calculations.retire_age config <= Calculations.end_age config)%Z)
  /\ ((Calculations.end_age config < Calculations.current_age config)%Z ->
      Calculations.run_projection config = Py.Return []).
Proof.
  split; [| split].
  - split.
    + intros [rows Hrun]. exact (run_projection_returned config rows Hrun).
    + intros [H | H].
      * exists []. now apply run_projection_empty_range.
      * destruct (run_projection_returns config H) as [rows [Hrun _]]. eauto.
  - split.
    + intros [e Hraise].
      destruct (Z.lt_ge_cases (Calculations.end_age config)
                              (Calculations.current_age config)) as [H1 | H1].
      * rewrite (run_projection_empty_range config H1) in Hraise. discriminate.
      * destruct (Z.lt_ge_cases (Calculations.end_age config)
                                (Calculations.retire_age config)) as [H2 | H2].
        -- destruct (run_projection_returns config H2) as [rows [Hrun _]].
           rewrite Hrun in Hraise. discriminate.
        -- split; assumption.
    + intros [H1 H2]. eexists. now apply run_projection_raises.
  - apply run_projection_empty_range.
Qed.

Lemma run_projection_returns_iff_witness :
  Calculations.run_projection MoreInputs.empty_range = Py.Return [].
Proof.
  apply (run_projection_returns_iff MoreInputs.empty_range).
  vm_compute. reflexivity.
Defined.

(** X10.  A run that returns gives one record for each age from
    [current_age] to [end_age], in order, and each of them is the record of
    a working year: its age is below [retire_age], [year_index] is the age
    less [current_age], [is_retirement_year] is false, the withdrawals, the
    Social Security income, the taxes, the effective rate and the net
    income are 0, and [total_balance] is the sum of the two balances. *)
Theorem returned_records_are_working_years
        (config : Calculations.ProjectionConfig) (rows : list Calculations.Row.t) :
  Calculations.run_projection config = Py.Return rows ->
  Z.of_nat (List.length rows)
  = Z.max 0 (Calculations.end_age config - Calculations.current_age config + 1)
  /\ map Calculations.Row.age rows = Calculations._year_sequence config
  /\ Forall (fun r =>
               (Calculations.current_age config <= Calculations.Row.age r
                <= Calculations.end_age config)%Z
               /\ (Calculations.Row.age r < Calculations.retire_age config)%Z
               /\ Calculations.Row.year_index r
                  = (Calculations.Row.age r - Calculations.current_age config)%Z
               /\ Calculations.Row.is_retirement_year r = false
               /\ Calculations.Row.withdrawal_total r == 0
               /\ Calculations.Row.withdrawal_401k r == 0
               /\ Calculations.Row.withdrawal_brokerage r == 0
               /\ Calculations.Row.social_security_income r == 0
               /\ Calculations.Row.tax_total r == 0
               /\ Calculations.Row.federal_tax r == 0
               /\ Calculations.Row.state_tax r == 0
               /\ Calculations.Row.tax_effective_rate r == 0
               /\ Calculations.Row.net_income_after_tax r == 0
               /\ Calculations.Row.total_balance r
                  == Calculations.Row.balance_401k r + Calculations.Row.balance_brokerage r)
            rows.
Proof.
  intros Hrun.
  assert (Hages : map Calculations.Row.age rows = Calculations._year_sequence config).
  { destruct (run_projection_returned config rows Hrun) as [H | H].
    - rewrite (run_projection_empty_range config H) in Hrun. inversion Hrun.
      unfold Calculations._year_sequence. rewrite range_nil by lia. reflexivity.
    - destruct (run_projection_returns config H) as [rows' [Hrun' [Hages _]]].
      rewrite Hrun in Hrun'. inversion Hrun'. subst. exact Hages. }
  split; [| split; [exact Hages |]].
  - rewrite <- (length_map Calculations.Row.age), Hages.
    unfold Calculations._year_sequence. rewrite range_length. lia.
  - assert (Hin : Forall (fun r =>
                            (Calculations.current_age config <= Calculations.Row.age r
                             <= Calculations.end_age config)%Z) rows).
    { apply Forall_forall. intros r Hr.
      apply (in_map Calculations.Row.age) in Hr. rewrite Hages in Hr.
      unfold Calculations._year_sequence in Hr. apply range_bounds in Hr. lia. }
    assert (Hrow : Forall (fun r =>
               (Calculations.Row.age r < Calculations.retire_age config)%Z
               /\ Calculations.Row.year_index r
                  = (Calculations.Row.age r - Calculations.current_age config)%Z
               /\ Calculations.Row.is_retirement_year r = false
               /\ Calculations.Row.withdrawal_total r == 0
               /\ Calculations.Row.withdrawal_401k r == 0
               /\ Calculations.Row.withdrawal_brokerage r == 0
               /\ Calculations.Row.social_security_income r == 0
               /\ Calculations.Row.tax_total r == 0
               /\ Calculations.Row.federal_tax r == 0
               /\ Calculations.Row.state_tax r == 0
               /\ Calculations.Row.tax_effective_rate r == 0
               /\ Calculations.Row.net_income_after_tax r == 0
               /\ Calculations.Row.total_balance r
                  == Calculations.Row.balance_401k r + Calculations.Row.balance_brokerage r)
            rows).
    { apply (run_projection_range_invariant config (fun _ _ _ => True));
        [| exact I | exact Hrun].
      intros age b1 b2 _ Hw l. split; [exact I |].
      subst l. unfold Calculations.year_locals.
      replace (Calculations.retire_age config <=? age)%Z with false
        by (symmetry; apply Z.leb_gt; exact Hw).
      cbn. repeat split; try reflexivity. exact Hw. }
    rewrite Forall_forall in *. intros r Hr. split; [apply Hin, Hr | apply Hrow, Hr].
Qed.

Lemma returned_records_are_working_years_witness :
  Z.of_nat (List.length Inputs.saving_rows) = 4%Z
  /\ map Calculations.Row.age Inputs.saving_rows = [60; 61; 62; 63]%Z.
Proof.
  destruct (returned_records_are_working_years Inputs.saving Inputs.saving_rows)
    as [Hlen [Hages _]].
  - vm_compute. reflexivity.
  - split; [exact Hlen | exact Hages].
Defined.

(** ** Growth over the working years *)

(** One working year of one account: the balance [b] with the yearly
    contribution [c] and the real return [ret] after [n] years and after
    [n + 1] years. *)
Lemma growth_step (b0 c ret b : Q) (n : Z) :
  (0 <= n)%Z ->
  ret * b == ret * b0 * (1 + ret) ^ n + c * (1 + ret) * ((1 + ret) ^ n - 1) ->
  (c == 0 -> b == b0 * (1 + ret) ^ n) ->
  let b' := (b + c) * (1 + ret) in
  ret * b' == ret * b0 * (1 + ret) ^ (n + 1) + c * (1 + ret) * ((1 + ret) ^ (n + 1) - 1)
  /\ (c == 0 -> b' == b0 * (1 + ret) ^ (n + 1)).
Proof.
  intros Hn Hclosed Hzero b'. subst b'. rewrite (power_succ (1 + ret) n Hn).
  revert Hclosed Hzero. generalize ((1 + ret) ^ n). intros p Hclosed Hzero. split.
  - transitivity ((1 + ret) * (ret * b) + ret * c * (1 + ret)); [ring |].
    rewrite Hclosed. ring.
  - intros Hc. specialize (Hzero Hc). rewrite Hc, Hzero. ring.
Qed.

(** X11.  In exact arithmetic: in a run that returns, the record of age
    [a] holds, with [k = a - current_age + 1] the number of years grown,
    balances that follow the future-value formula of a yearly contribution
    [c] made before growth at the real return [ret]:
    [ret * balance = ret * start * (1 + ret)^k + c * (1 + ret) * ((1 + ret)^k - 1)];
    and with no contribution the balance is [start * (1 + ret)^k]. *)
Theorem working_years_compound
        (config : Calculations.ProjectionConfig) (rows : list Calculations.Row.t) :
  Calculations.run_projection config = Py.Return rows ->
  Forall (fun r =>
            let k := (Calculations.Row.age r - Calculations.current_age config + 1)%Z in
            let future_value start c ret balance :=
              ret * balance
              == ret * start * (1 + ret) ^ k + c * (1 + ret) * ((1 + ret) ^ k - 1)
              /\ (c == 0 -> balance == start * (1 + ret) ^ k) in
            future_value (Calculations.current_401k_balance config)
                         (Calculations.annual_401k_contribution config)
                         (Calculations.real_return_401k config)
                         (Calculations.Row.balance_401k r)
            /\ future_value (Calculations.current_brokerage_balance config)
                            (Calculations.annual_brokerage_contribution config)
                            (Calculations.real_return_brokerage config)
                            (Calculations.Row.balance_brokerage r))
         rows.
Proof.
  intros Hrun.
  set (holds := fun (start c ret balance : Q) (n : Z) =>
                  (ret * balance
                   == ret * start * (1 + ret) ^ n + c * (1 + ret) * ((1 + ret) ^ n - 1))
                  /\ (c == 0 -> balance == start * (1 + ret) ^ n)).
  apply (run_projection_range_invariant config
           (fun age b1 b2 =>
              (Calculations.current_age config <= age)%Z
              /\ holds (Calculations.current_401k_balance config)
                       (Calculations.annual_401k_contribution config)
                       (Calculations.real_return_401k config) b1
                       (age - Calculations.current_age config)%Z
              /\ holds (Calculations.current_brokerage_balance config)
                       (Calculations.annual_brokerage_contribution config)
                       (Calculations.real_return_brokerage config) b2
                       (age - Calculations.current_age config)%Z));
    [| | exact Hrun].
  - intros age b1 b2 [Hage [[H1 H1z] [H2 H2z]]] Hw l.
    subst l. unfold Calculations.year_locals.
    replace (Calculations.retire_age config <=? age)%Z with false
      by (symmetry; apply Z.leb_gt; exact Hw).
    cbn [negb andb Calculations.Locals.balance_401k Calculations.Locals.balance_brokerage
         Calculations.make_row Calculations.Row.balance_401k
         Calculations.Row.balance_brokerage Calculations.Row.age].
    assert (Hn : (0 <= age - Calculations.current_age config)%Z) by lia.
    pose proof (growth_step _ _ _ b1 _ Hn H1 H1z) as G1.
    pose proof (growth_step _ _ _ b2 _ Hn H2 H2z) as G2.
    cbv zeta in G1, G2.
    replace (age + 1 - Calculations.current_age config)%Z
      with (age - Calculations.current_age config + 1)%Z by lia.
    unfold holds. split; [split; [lia | split; assumption] | split; assumption].
  - unfold holds. rewrite Z.sub_diag. split; [lia |].
    split; split; try (intros _); simpl; ring.
Qed.

Lemma working_years_compound_witness :
  Forall (fun r =>
            Calculations.real_return_401k Inputs.saving * Calculations.Row.balance_401k r
            == Calculations.real_return_401k Inputs.saving
               * Calculations.current_401k_balance Inputs.saving
               * (1 + Calculations.real_return_401k Inputs.saving)
                 ^ (Calculations.Row.age r - Calculations.current_age Inputs.saving + 1)
               + Calculations.annual_401k_contribution Inputs.saving
                 * (1 + Calculations.real_return_401k Inputs.saving)
                 * ((1 + Calculations.real_return_401k Inputs.saving)
                      ^ (Calculations.Row.age r
                         - Calculations.current_age Inputs.saving + 1) - 1))
         Inputs.saving_rows.
Proof.
  assert (H : Calculations.run_projection Inputs.saving = Py.Return Inputs.saving_rows)
    by (vm_compute; reflexivity).
  apply working_years_compound in H.
  eapply Forall_impl; [| exact H].
  intros r [[H1 _] _]. exact H1.
Defined.

(** ** The withdrawals of a retirement year *)

(** X12.  A retirement year adds no contribution: each post-growth balance
    is the balance carried in times one plus the real return.  In exact
    arithmetic the withdrawals take money from the accounts and nothing
    else does: the two end-of-year balances and the withdrawal total add up
    to the two post-growth balances, so the portfolio ends the year at
    [1 - swr] of its post-growth value. *)
Theorem retirement_year_conserves (config : Calculations.ProjectionConfig)
        (balance_401k balance_brokerage : Q) (age : Z) :
  (Calculations.retire_age config <= age)%Z ->
  let l := Calculations.year_locals config balance_401k balance_brokerage age in
  Calculations.Locals.post_growth_401k l
  == balance_401k * (1 + Calculations.real_return_401k config)
  /\ Calculations.Locals.post_growth_brokerage l
     == balance_brokerage * (1 + Calculations.real_return_brokerage config)
  /\ Calculations.Locals.balance_401k l + Calculations.Locals.balance_brokerage l
     + Calculations.Locals.withdrawal_total l
     == Calculations.Locals.post_growth_401k l + Calculations.Locals.post_growth_brokerage l
  /\ Calculations.Locals.balance_401k l + Calculations.Locals.balance_brokerage l
     == (Calculations.Locals.post_growth_401k l
         + Calculations.Locals.post_growth_brokerage l)
        * (1 - Calculations.swr config).
Proof.
  intros Hret. unfold Calculations.year_locals.
  replace (Calculations.retire_age config <=? age)%Z with true
    by (symmetry; apply Z.leb_le; exact Hret).
  cbn [negb andb].
  destruct (String.eqb (Calculations.withdrawal_order config) "brokerage_first");
    cbv zeta; cbn [Calculations.Locals.withdrawal_total
      Calculations.Locals.balance_401k Calculations.Locals.balance_brokerage
      Calculations.Locals.post_growth_401k Calculations.Locals.post_growth_brokerage];
    repeat split; ring.
Qed.

Lemma retirement_year_conserves_witness :
  let l := Calculations.year_locals Inputs.brokerage_first 300000 600000 65 in
  Calculations.Locals.balance_401k l + Calculations.Locals.balance_brokerage l
  == (Calculations.Locals.post_growth_401k l + Calculations.Locals.post_growth_brokerage l)
     * (1 - Calculations.swr Inputs.brokerage_first).
Proof.
  intros l.
  apply (retirement_year_conserves Inputs.brokerage_first 300000 600000 65).
  vm_compute. discriminate.
Defined.

(** On binary64 numbers the sums are rounded: with 100000 and 98765, 5%
    growth and 3.5% withdrawn, the balances and the withdrawal add up to
    208703.24999999997 and the post-growth balances to 208703.25. *)
Lemma conservation_rounds :
  let config := Binary64Year.uneven in
  let l := Binary64Year.year_locals config 100000 98765 65 in
  (Binary64Year.Locals.balance_401k l + Binary64Year.Locals.balance_brokerage l
   + Binary64Year.Locals.withdrawal_total l)%float = 208703.24999999997%float
  /\ (Binary64Year.Locals.post_growth_401k l
      + Binary64Year.Locals.post_growth_brokerage l)%float = 208703.25%float.
Proof. vm_compute. repeat split. Qed.

(** X13.  The second account is drawn on only for what the first cannot
    cover.  Under "brokerage_first": when the withdrawal total is within
    the post-growth brokerage balance the 401k is left whole, and otherwise
    the brokerage account ends the year empty and the 401k gives the rest.
    Under any other order the same holds with the accounts exchanged. *)
Theorem withdrawal_priority (config : Calculations.ProjectionConfig)
        (balance_401k balance_brokerage : Q) (age : Z) :
  (Calculations.retire_age config <= age)%Z ->
  let l := Calculations.year_locals config balance_401k balance_brokerage age in
  let total := Calculations.Locals.withdrawal_total l in
  (Calculations.withdrawal_order config = "brokerage_first"%string ->
   (total <= Calculations.Locals.post_growth_brokerage l ->
    Calculations.Locals.withdrawal_401k l == 0
    /\ Calculations.Locals.withdrawal_brokerage l == total
    /\ Calculations.Locals.balance_401k l == Calculations.Locals.post_growth_401k l)
   /\ (Calculations.Locals.post_growth_brokerage l < total ->
       Calculations.Locals.balance_brokerage l == 0
       /\ Calculations.Locals.withdrawal_401k l
          == total - Calculations.Locals.post_growth_brokerage l))
  /\ (Calculations.withdrawal_order config <> "brokerage_first"%string ->
      (total <= Calculations.Locals.post_growth_401k l ->
       Calculations.Locals.withdrawal_brokerage l == 0
       /\ Calculations.Locals.withdrawal_401k l == total
       /\ Calculations.Locals.balance_brokerage l
          == Calculations.Locals.post_growth_brokerage l)
      /\ (Calculations.Locals.post_growth_401k l < total ->
          Calculations.Locals.balance_401k l == 0
          /\ Calculations.Locals.withdrawal_brokerage l
             == total - Calculations.Locals.post_growth_401k l)).
Proof.
  intros Hret. unfold Calculations.year_locals.
  replace (Calculations.retire_age config <=? age)%Z with true
    by (symmetry; apply Z.leb_le; exact Hret).
  cbn [negb andb].
  set (p1 := balance_401k * (1 + Calculations.real_return_401k config)).
  set (p2 := balance_brokerage * (1 + Calculations.real_return_brokerage config)).
  set (total := (p1 + p2) * Calculations.swr config).
  clearbody total p1 p2.
  destruct (String.eqb_spec (Calculations.withdrawal_order config) "brokerage_first")
    as [Eo | Eo]; cbv zeta; cbn [Calculations.Locals.withdrawal_total
      Calculations.Locals.withdrawal_401k Calculations.Locals.withdrawal_brokerage
      Calculations.Locals.balance_401k Calculations.Locals.balance_brokerage
      Calculations.Locals.post_growth_401k Calculations.Locals.post_growth_brokerage].
  - split; [intros _ | intros E; contradiction].
    destruct (min_cases total p2) as [[H E] | [H E]]; rewrite E;
      split; intros Hcase; repeat split; lra.
  - split; [intros E; contradiction | intros _].
    destruct (min_cases total p1) as [[H E] | [H E]]; rewrite E;
      split; intros Hcase; repeat split; lra.
Qed.

Lemma withdrawal_priority_witness :
  let l := Calculations.year_locals MoreInputs.tax_deferred_first 300000 600000 65 in
  Calculations.Locals.withdrawal_brokerage l == 0
  /\ Calculations.Locals.withdrawal_401k l == Calculations.Locals.withdrawal_total l
  /\ Calculations.Locals.balance_brokerage l == Calculations.Locals.post_growth_brokerage l.
Proof.
  intros l.
  destruct (withdrawal_priority MoreInputs.tax_deferred_first 300000 600000 65)
    as [_ H].
  - vm_compute. discriminate.
  - apply H.
    + vm_compute. discriminate.
    + vm_compute. discriminate.
Defined.

(** ** Social Security *)

Lemma cola_power_ge_1 (n : Z) : (0 <= n)%Z -> 1 <= 1.025 ^ n.
Proof.
  revert n. apply natlike_ind.
  - simpl. lra.
  - intros n Hn IH. unfold Z.succ. rewrite (power_succ 1.025 n Hn). nra.
Qed.

(** X14.  From age 62 on, the Social Security income of a retirement year
    is never less than 41000, whatever the balances; and in exact
    arithmetic each such year pays 2.5% more than the year before. *)
Theorem social_security_cola (config : Calculations.ProjectionConfig)
        (b1 b2 b1' b2' : Q) (age : Z) :
  (Calculations.retire_age config <= age)%Z ->
  (62 <= age)%Z ->
  let this_year :=
    Calculations.Locals.social_security_income
      (Calculations.year_locals config b1 b2 age) in
  let next_year :=
    Calculations.Locals.social_security_income
      (Calculations.year_locals config b1' b2' (age + 1)) in
  next_year == 1.025 * this_year /\ 41000 <= this_year.
Proof.
  intros Hret H62 this_year next_year. subst this_year next_year.
  rewrite !year_locals_social_security_income.
  replace (Calculations.retire_age config <=? age)%Z with true
    by (symmetry; apply Z.leb_le; lia).
  replace (Calculations.retire_age config <=? age + 1)%Z with true
    by (symmetry; apply Z.leb_le; lia).
  replace (62 <=? age)%Z with true by (symmetry; apply Z.leb_le; lia).
  replace (62 <=? age + 1)%Z with true by (symmetry; apply Z.leb_le; lia).
  cbn [andb].
  assert (Hbase : 1 + Calculations.SOCIAL_SECURITY_COLA == 1.025) by reflexivity.
  rewrite !Hbase.
  replace (age + 1 - 62)%Z with (age - 62 + 1)%Z by lia.
  rewrite (power_succ 1.025 (age - 62)) by lia.
  pose proof (cola_power_ge_1 (age - 62) ltac:(lia)) as Hge.
  unfold Calculations.SOCIAL_SECURITY_MAX_AGE_62.
  revert Hge. generalize (1.025 ^ (age - 62)). intros p Hge. split; [ring | lra].
Qed.

Lemma social_security_cola_witness :
  Calculations.Locals.social_security_income
    (Calculations.year_locals Inputs.retiring 100000 0 66)
  == 1.025 * Calculations.Locals.social_security_income
               (Calculations.year_locals Inputs.retiring 100000 0 65).
Proof.
  apply (social_security_cola Inputs.retiring 100000 0 100000 0 65).
  - vm_compute. discriminate.
  - vm_compute. discriminate.
Defined.

(** ** Building the configuration *)

Lemma projection_config_unexpected (kwargs : list (string * App.Arg)) (name : string) :
  In name (map fst kwargs) ->
  ~ In name App.ProjectionConfig_fields ->
  exists k : string,
    App.ProjectionConfig_init kwargs
    = Py.Raise (Py.TypeError_unexpected_keyword "ProjectionConfig.__init__" k)
    /\ In k (map fst kwargs)
    /\ ~ In k App.ProjectionConfig_fields.
Proof.
  intros Hin Hnot. unfold App.ProjectionConfig_init, App.unexpected_keyword.
  destruct (find _ kwargs) as [[k v] |] eqn:E.
  - apply find_some in E. destruct E as [Hk Hpred]. cbn [fst] in Hpred.
    exists k. cbn [option_map fst]. split; [reflexivity |]. split.
    + apply in_map_iff. exists (k, v). split; [reflexivity | exact Hk].
    + intros Hfield. apply Bool.negb_true_iff in Hpred.
      assert (Ht : existsb (String.eqb k) App.ProjectionConfig_fields = true).
      { apply existsb_exists. exists k. split; [exact Hfield | apply String.eqb_refl]. }
      congruence.
  - exfalso. apply in_map_iff in Hin. destruct Hin as [[k v] [Hk Hkv]].
    cbn [fst] in Hk. subst k.
    pose proof (find_none _ _ E _ Hkv) as Hpred. cbn [fst] in Hpred.
    apply Bool.negb_false_iff, existsb_exists in Hpred.
    destruct Hpred as [f [Hf Heq]]. apply String.eqb_eq in Heq. subst f.
    contradiction.
Qed.

(** X15.  [ProjectionConfig] declares no [social_security_start_age]:
    every keyword call that passes it raises [TypeError] for a keyword
    outside the declared fields, whatever the other arguments are.  Both
    calls of app.py pass it and raise on it: the one of [_default_config],
    and the one that ends [_build_sidebar] for every value of the
    widgets. *)
Theorem app_configuration_raises :
  (forall kwargs : list (string * App.Arg),
      In "social_security_start_age"%string (map fst kwargs) ->
      exists k : string,
        App.ProjectionConfig_init kwargs
        = Py.Raise (Py.TypeError_unexpected_keyword "ProjectionConfig.__init__" k)
        /\ In k (map fst kwargs)
        /\ ~ In k App.ProjectionConfig_fields)
  /\ App._default_config
     = Py.Raise (Py.TypeError_unexpected_keyword "ProjectionConfig.__init__"
                                                 "social_security_start_age")
  /\ (forall (current_age retire_age end_age : Z)
             (current_401k_balance current_brokerage_balance
              annual_401k_contribution annual_brokerage_contribution
              real_return_401k real_return_brokerage swr : Q)
             (filing_status : string) (state_tax_rate : Q)
             (withdrawal_order : string) (social_security_start_age : Z),
         App.ProjectionConfig_init
           (App.build_sidebar_kwargs current_age retire_age end_age
              current_401k_balance current_brokerage_balance
              annual_401k_contribution annual_brokerage_contribution
              real_return_401k real_return_brokerage swr
              filing_status state_tax_rate withdrawal_order social_security_start_age)
         = Py.Raise (Py.TypeError_unexpected_keyword "ProjectionConfig.__init__"
                                                     "social_security_start_age")).
Proof.
  split; [| split].
  - intros kwargs Hin. apply (projection_config_unexpected kwargs _ Hin).
    cbn. intros H. repeat (destruct H as [H | H]; [discriminate |]). exact H.
  - reflexivity.
  - intros. reflexivity.
Qed.

Lemma app_configuration_raises_witness :
  exists k : string,
    App.ProjectionConfig_init App.default_config_kwargs
    = Py.Raise (Py.TypeError_unexpected_keyword "ProjectionConfig.__init__" k)
    /\ In k (map fst App.default_config_kwargs)
    /\ ~ In k App.ProjectionConfig_fields.
Proof.
  apply (proj1 app_configuration_raises App.default_config_kwargs).
  cbn. repeat (try (left; reflexivity); right).
Defined.

(** ** The ages of a projection *)

Lemma range_NoDup (lo hi : Z) : NoDup (Py.range lo hi).
Proof.
  unfold Py.range. generalize (seq_NoDup (Z.to_nat (hi - lo)) 0).
  generalize (seq 0 (Z.to_nat (hi - lo))). intros l Hl.
  induction Hl as [| i l Hnotin _ IH]; cbn [map]; constructor; [| exact IH].
  intros Hin. apply in_map_iff in Hin. destruct Hin as [j [Heq Hj]].
  assert (j = i) by lia. subst j. contradiction.
Qed.

(** X16.  [_year_sequence] lists each age from [current_age] to [end_age]
    once, in increasing order: it has [end_age - current_age + 1] entries
    (none when [end_age < current_age]), its entry of index [k] is
    [current_age + k], and an age is listed exactly when it lies between
    the two bounds. *)
Theorem year_sequence_ages (config : Calculations.ProjectionConfig) :
  let years := Calculations._year_sequence config in
  Z.of_nat (List.length years)
  = Z.max 0 (Calculations.end_age config - Calculations.current_age config + 1)
  /\ (forall k : nat,
         (k < List.length years)%nat ->
         nth_error years k = Some (Calculations.current_age config + Z.of_nat k)%Z)
  /\ (forall age : Z,
         In age years
         <-> (Calculations.current_age config <= age <= Calculations.end_age config)%Z)
  /\ NoDup years.
Proof.
  intros years. subst years. unfold Calculations._year_sequence.
  split; [rewrite range_length; lia |].
  split; [| split].
  - intros k Hk. rewrite range_length in Hk.
    rewrite (nth_error_nth' _ 0%Z) by (rewrite range_length; exact Hk).
    f_equal. now apply range_nth.
  - intros age. rewrite range_bounds. lia.
  - apply range_NoDup.
Qed.

Lemma year_sequence_ages_witness :
  nth_error (Calculations._year_sequence Inputs.retiring) 2 = Some 66%Z.
Proof.
  apply (proj1 (proj2 (year_sequence_ages Inputs.retiring)) 2%nat).
  vm_compute. reflexivity.
Defined.
